(** * quizgen: the [/generate] request handler of [main.py]

    The development embeds the view function [generate] of [main.py] and the
    two helpers it calls, [get_google_docs_service] and [create_google_doc].

    Conventions of the embedding.
    - A Python [str] is a Rocq [string] holding its UTF-8 encoding.  Every
      character the program searches for or splits at (braces, quotes, JSON
      punctuation) is ASCII, and an ASCII byte never occurs inside a
      multi-byte sequence, so searching and slicing commute with the encoding.
    - A Python [int] is a [Z]; a Python [float] is an IEEE-754 binary64 value,
      [spec_float] of the Standard Library.
    - A Python [dict] is an association list in insertion order with distinct
      keys; JSON objects only have string keys.
    - Exceptions are values of [exn]; a computation that may raise returns a
      [res].  Calls that leave the process (the Gemini API, credential
      discovery, the Docs API) are answered by a [World] and recorded in a
      trace of [call]s.
    - Built-ins of the interpreter whose result depends on the Unicode
      database or on decimal/binary conversion are fields of [Builtins] and
      every statement holds for all of them.
    - Log lines ([print]) are not part of the model, but the expressions a
      log line evaluates are, since they can raise.
    - Interpreter resource limits (recursion depth, memory, the limit on the
      number of digits of an [int] conversion) are not modelled. *)

From Stdlib Require Import ZArith List String Ascii Bool Lia.
From Stdlib Require Import DecimalString SpecFloat.
Import ListNotations.

Set Warnings "-register-all".
Open Scope string_scope.
Open Scope Z_scope.

(** ** Python values, exceptions and results *)

(** The values [json.loads] and [request.get_json] can produce. *)
Inductive pyval : Type :=
| PyNone
| PyBool (b : bool)
| PyInt (z : Z)
| PyFloat (f : spec_float)
| PyStr (s : string)
| PyList (items : list pyval)
| PyDict (entries : list (string * pyval)).

(** Exception classes the handler can meet; all derive from [Exception].
    [HttpError] carries [err.resp.status] and the result of
    [err.content.decode()] ([None] when the bytes are not valid UTF-8).
    [ExternalError] is any other exception class raised by a collaborator. *)
Inductive exn : Type :=
| KeyError (key : string)
| TypeError
| ValueError
| OverflowError
| AttributeError
| UnboundLocalError (name : string)
| JSONDecodeError
| UnicodeDecodeError
| HttpError (status : Z) (content : option string)
| ExternalError (cls : string).

Inductive res (A : Type) : Type :=
| Ok (a : A)
| Raise (e : exn).
Arguments Ok {A} a.
Arguments Raise {A} e.

Definition res_bind {A B : Type} (m : res A) (k : A -> res B) : res B :=
  match m with
  | Ok a => k a
  | Raise e => Raise e
  end.

Declare Scope res_scope.
Delimit Scope res_scope with res.
Notation "x <- m ;; k" := (res_bind m (fun x => k))
  (at level 61, m at next level, right associativity) : res_scope.

(** The built-ins taken as parameters. *)
Record Builtins : Type := {
  (** [int(s)] for a [str]; [None] when it raises [ValueError]. *)
  int_of_str : string -> option Z;
  (** [float(s)] for the text of a JSON number with a fraction or exponent. *)
  float_of_str : string -> spec_float;
  (** [repr(x)] for a [float]. *)
  repr_float : spec_float -> string;
  (** [repr(s)] for a [str]. *)
  repr_str : string -> string
}.

(** ** Strings *)

(** The line feed and the double quote, which a literal cannot hold. *)
Definition LF : string := String (ascii_of_nat 10) EmptyString.
Definition DQ : string := String (ascii_of_nat 34) EmptyString.

Definition ord (c : ascii) : Z := Z.of_nat (nat_of_ascii c).

Definition len (s : string) : Z := Z.of_nat (String.length s).

(** [s.find(c)] for a one-character [c]: the lowest index, or [-1]. *)
Fixpoint find_from (c : ascii) (s : string) (i : Z) : Z :=
  match s with
  | EmptyString => -1
  | String a s' => if Ascii.eqb a c then i else find_from c s' (i + 1)
  end.
Definition find (c : ascii) (s : string) : Z := find_from c s 0.

(** [s.rfind(c)] for a one-character [c]: the highest index, or [-1]. *)
Fixpoint rfind_from (c : ascii) (s : string) (i last : Z) : Z :=
  match s with
  | EmptyString => last
  | String a s' => rfind_from c s' (i + 1) (if Ascii.eqb a c then i else last)
  end.
Definition rfind (c : ascii) (s : string) : Z := rfind_from c s 0 (-1).

(** How a slice bound is read: a negative bound counts from the end, and
    both ends are clipped to the string. *)
Definition slice_bound (i n : Z) : Z :=
  if i <? 0 then Z.max 0 (i + n) else Z.min i n.

(** [s[start:stop]]. *)
Definition slice (s : string) (start stop : Z) : string :=
  let n := len s in
  let a := slice_bound start n in
  let b := slice_bound stop n in
  substring (Z.to_nat a) (Z.to_nat (b - a)) s.

(** [str(n)] for an [int]. *)
Definition str_of_int (n : Z) : string := NilZero.string_of_int (Z.to_int n).

(** [sep.join(parts)]. *)
Definition join (sep : string) (parts : list string) : string :=
  String.concat sep parts.

(** The characters of a [str], as iteration yields them: each lead byte with
    the continuation bytes (10xxxxxx) that follow it. *)
Definition is_continuation (c : ascii) : bool :=
  (128 <=? ord c) && (ord c <? 192).

Fixpoint characters (s : string) : list string :=
  match s with
  | EmptyString => []
  | String c s' =>
      match s' with
      | EmptyString => [String c EmptyString]
      | String d _ =>
          if is_continuation d then
            match characters s' with
            | g :: gs => String c g :: gs
            | [] => [String c EmptyString]
            end
          else String c EmptyString :: characters s'
      end
  end.

(** ** [json.loads]

    The decoder of CPython's [json] package with its default settings
    ([strict], no hooks), as its C scanner reads a [str]: its grammar and
    the values it builds.  Every failure of the grammar is a
    [JSONDecodeError].  The limits of the interpreter are not part of it: on
    a text nested deeper than the recursion limit allows, or holding an
    integer of more digits than [int] converts, CPython raises
    [RecursionError] or [ValueError] where this decoder goes on.  Where a
    property below needs a decoded value, that the decoding succeeded is its
    hypothesis. *)

Definition is_ws (c : ascii) : bool :=
  (ord c =? 32) || (ord c =? 9) || (ord c =? 10) || (ord c =? 13).

Fixpoint skip_ws (s : string) : string :=
  match s with
  | EmptyString => EmptyString
  | String c s' => if is_ws c then skip_ws s' else s
  end.

Fixpoint drop (n : nat) (s : string) : string :=
  match n, s with
  | S n', String _ s' => drop n' s'
  | _, _ => s
  end.

Definition is_digit (c : ascii) : bool := (48 <=? ord c) && (ord c <=? 57).

Definition hex_digit (c : ascii) : option Z :=
  let n := ord c in
  if (48 <=? n) && (n <=? 57) then Some (n - 48)
  else if (97 <=? n) && (n <=? 102) then Some (n - 87)
  else if (65 <=? n) && (n <=? 70) then Some (n - 55)
  else None.

Definition hex4 (a b c d : ascii) : option Z :=
  match hex_digit a, hex_digit b, hex_digit c, hex_digit d with
  | Some x, Some y, Some z, Some w => Some (((x * 16 + y) * 16 + z) * 16 + w)
  | _, _, _, _ => None
  end.

Definition byte_of (n : Z) : ascii := ascii_of_N (Z.to_N n).

(** The UTF-8 encoding of one code point (a lone surrogate is encoded like
    any other three-byte code point). *)
Definition utf8 (cp : Z) : string :=
  let cont (k : Z) := byte_of (Z.lor 128 (Z.land (Z.shiftr cp k) 63)) in
  if cp <? 128 then String (byte_of cp) EmptyString
  else if cp <? 2048 then
    String (byte_of (Z.lor 192 (Z.shiftr cp 6))) (String (cont 0) EmptyString)
  else if cp <? 65536 then
    String (byte_of (Z.lor 224 (Z.shiftr cp 12)))
      (String (cont 6) (String (cont 0) EmptyString))
  else
    String (byte_of (Z.lor 240 (Z.shiftr cp 18)))
      (String (cont 12) (String (cont 6) (String (cont 0) EmptyString))).

Definition is_high_surrogate (u : Z) : bool := (55296 <=? u) && (u <=? 56319).
Definition is_low_surrogate (u : Z) : bool := (56320 <=? u) && (u <=? 57343).
Definition join_surrogates (hi lo : Z) : Z :=
  65536 + Z.lor (Z.shiftl (hi - 55296) 10) (lo - 56320).

(** One-character escapes after a backslash. *)
Definition simple_escape (e : ascii) : option ascii :=
  let n := ord e in
  if (n =? 34) || (n =? 92) || (n =? 47) then Some e
  else if n =? 98 then Some (ascii_of_nat 8)
  else if n =? 102 then Some (ascii_of_nat 12)
  else if n =? 110 then Some (ascii_of_nat 10)
  else if n =? 114 then Some (ascii_of_nat 13)
  else if n =? 116 then Some (ascii_of_nat 9)
  else None.

Definition prepend (p : string) (r : option (string * string))
  : option (string * string) :=
  match r with
  | Some (v, rest) => Some (p ++ v, rest)
  | None => None
  end.

(** [scanstring]: the text after an opening quote, up to the closing quote;
    the decoded string and what follows it. *)
Fixpoint scanstring (s : string) : option (string * string) :=
  match s with
  | EmptyString => None
  | String c s1 =>
      if ord c =? 34 then Some (EmptyString, s1)
      else if ord c =? 92 then
        match s1 with
        | EmptyString => None
        | String e s2 =>
            if ord e =? 117 then
              match s2 with
              | String h1 (String h2 (String h3 (String h4 s3))) =>
                  match hex4 h1 h2 h3 h4 with
                  | None => None
                  | Some u =>
                      match s3 with
                      | String b (String v (String k1 (String k2 (String k3 (String k4 s4))))) =>
                          match
                            (if is_high_surrogate u && (ord b =? 92) && (ord v =? 117)
                             then hex4 k1 k2 k3 k4 else None)
                          with
                          | Some u2 =>
                              if is_low_surrogate u2
                              then prepend (utf8 (join_surrogates u u2)) (scanstring s4)
                              else prepend (utf8 u) (scanstring s3)
                          | None => prepend (utf8 u) (scanstring s3)
                          end
                      | _ => prepend (utf8 u) (scanstring s3)
                      end
                  end
              | _ => None
              end
            else
              match simple_escape e with
              | Some x => prepend (String x EmptyString) (scanstring s2)
              | None => None
              end
        end
      else if ord c <=? 31 then None
      else prepend (String c EmptyString) (scanstring s1)
  end.

Fixpoint span_digits (s : string) : string * string :=
  match s with
  | EmptyString => (EmptyString, EmptyString)
  | String c s' =>
      if is_digit c
      then let (d, r) := span_digits s' in (String c d, r)
      else (EmptyString, s)
  end.

(** The value of a run of decimal digits. *)
Fixpoint digits_value (s : string) (acc : Z) : Z :=
  match s with
  | EmptyString => acc
  | String c s' => digits_value s' (10 * acc + (ord c - 48))
  end.

(** Result of a scanner that consumes input: a value and the rest of the
    text, a decoding error, or no fuel left. *)
Inductive scan (A : Type) : Type :=
| Parsed (a : A) (rest : string)
| Failed
| OutOfFuel.
Arguments Parsed {A} a rest.
Arguments Failed {A}.
Arguments OutOfFuel {A}.

(** [dict[key] = value]: an existing key keeps its place. *)
Fixpoint dict_set (key : string) (value : pyval) (d : list (string * pyval))
  : list (string * pyval) :=
  match d with
  | [] => [(key, value)]
  | (k, v) :: d' =>
      if String.eqb k key then (k, value) :: d'
      else (k, v) :: dict_set key value d'
  end.

Fixpoint dict_lookup (key : string) (d : list (string * pyval)) : option pyval :=
  match d with
  | [] => None
  | (k, v) :: d' => if String.eqb k key then Some v else dict_lookup key d'
  end.

Section Model.

Variable py : Builtins.

(** The integer part of a number: an optional minus sign, then a single
    zero or a nonzero digit followed by digits. *)
Definition scan_integer (s : string) : option (string * string) :=
  let (sign, s1) :=
    match s with
    | String c s' => if ord c =? 45 then ("-", s') else (EmptyString, s)
    | EmptyString => (EmptyString, s)
    end in
  match s1 with
  | EmptyString => None
  | String c s2 =>
      if ord c =? 48 then Some (sign ++ "0", s2)
      else if is_digit c
      then let (d, r) := span_digits s2 in Some (sign ++ String c d, r)
      else None
  end.

(** The fraction, when one follows: a dot and at least one digit. *)
Definition scan_fraction (s : string) : string * string :=
  match s with
  | String p (String d s') =>
      if (ord p =? 46) && is_digit d
      then let (ds, r) := span_digits s' in (String p (String d ds), r)
      else (EmptyString, s)
  | _ => (EmptyString, s)
  end.

(** The exponent, when one follows: e or E, an optional sign, and at least
    one digit. *)
Definition scan_exponent (s : string) : string * string :=
  match s with
  | String e s1 =>
      if (ord e =? 101) || (ord e =? 69) then
        let (sign, s2) :=
          match s1 with
          | String c s' =>
              if (ord c =? 45) || (ord c =? 43)
              then (String c EmptyString, s') else (EmptyString, s1)
          | EmptyString => (EmptyString, s1)
          end in
        let (ds, r) := span_digits s2 in
        match ds with
        | EmptyString => (EmptyString, s)
        | _ => (String e (sign ++ ds), r)
        end
      else (EmptyString, s)
  | EmptyString => (EmptyString, s)
  end.

Definition int_of_literal (lit : string) : Z :=
  match lit with
  | String c ds => if ord c =? 45 then - digits_value ds 0 else digits_value lit 0
  | EmptyString => 0
  end.

(** A number: an [int] without fraction and exponent, a [float] otherwise. *)
Definition scan_number (s : string) : scan pyval :=
  match scan_integer s with
  | None => Failed
  | Some (integer, r1) =>
      let (frac, r2) := scan_fraction r1 in
      let (exp, r3) := scan_exponent r2 in
      match frac, exp with
      | EmptyString, EmptyString => Parsed (PyInt (int_of_literal integer)) r3
      | _, _ => Parsed (PyFloat (float_of_str py (integer ++ frac ++ exp))) r3
      end
  end.

(** The literals, then numbers. *)
Definition scan_atom (s : string) : scan pyval :=
  if prefix "null" s then Parsed PyNone (drop 4 s)
  else if prefix "true" s then Parsed (PyBool true) (drop 4 s)
  else if prefix "false" s then Parsed (PyBool false) (drop 5 s)
  else if prefix "NaN" s then Parsed (PyFloat S754_nan) (drop 3 s)
  else if prefix "Infinity" s then Parsed (PyFloat (S754_infinity false)) (drop 8 s)
  else if prefix "-Infinity" s then Parsed (PyFloat (S754_infinity true)) (drop 9 s)
  else scan_number s.

(** [scan_once], [JSONArray] and [JSONObject].  [parse_array] and
    [parse_object] start before an element, after the opening bracket or a
    comma and the white space behind it. *)
Fixpoint scan_once (fuel : nat) (s : string) : scan pyval :=
  match fuel with
  | O => OutOfFuel
  | S fuel' =>
      match s with
      | EmptyString => Failed
      | String c s' =>
          if ord c =? 34 then
            match scanstring s' with
            | Some (v, r) => Parsed (PyStr v) r
            | None => Failed
            end
          else if ord c =? 123 then
            match skip_ws s' with
            | String d r =>
                if ord d =? 125 then Parsed (PyDict []) r
                else parse_object fuel' (String d r) []
            | EmptyString => Failed
            end
          else if ord c =? 91 then
            match skip_ws s' with
            | String d r =>
                if ord d =? 93 then Parsed (PyList []) r
                else parse_array fuel' (String d r) []
            | EmptyString => Failed
            end
          else scan_atom s
      end
  end
with parse_array (fuel : nat) (s : string) (acc : list pyval) : scan pyval :=
  match fuel with
  | O => OutOfFuel
  | S fuel' =>
      match scan_once fuel' s with
      | Parsed v r =>
          match skip_ws r with
          | String d r' =>
              if ord d =? 93 then Parsed (PyList (rev (v :: acc))) r'
              else if ord d =? 44 then parse_array fuel' (skip_ws r') (v :: acc)
              else Failed
          | EmptyString => Failed
          end
      | Failed => Failed
      | OutOfFuel => OutOfFuel
      end
  end
with parse_object (fuel : nat) (s : string) (acc : list (string * pyval))
  : scan pyval :=
  match fuel with
  | O => OutOfFuel
  | S fuel' =>
      match s with
      | EmptyString => Failed
      | String q s1 =>
          if ord q =? 34 then
            match scanstring s1 with
            | None => Failed
            | Some (key, r1) =>
                match skip_ws r1 with
                | EmptyString => Failed
                | String colon r2 =>
                    if ord colon =? 58 then
                      match scan_once fuel' (skip_ws r2) with
                      | Parsed v r3 =>
                          match skip_ws r3 with
                          | String d r4 =>
                              if ord d =? 125
                              then Parsed (PyDict (dict_set key v acc)) r4
                              else if ord d =? 44
                              then parse_object fuel' (skip_ws r4) (dict_set key v acc)
                              else Failed
                          | EmptyString => Failed
                          end
                      | Failed => Failed
                      | OutOfFuel => OutOfFuel
                      end
                    else Failed
                end
            end
          else Failed
      end
  end.

(** Fuel no scan of [s] can use up (lemma [json_loads_fuel]). *)
Definition enough_fuel (s : string) : nat := 2 * String.length s + 2.

(** [json.loads(s)]: one value, white space around it, nothing else. *)
Definition json_loads (s : string) : res pyval :=
  match scan_once (enough_fuel s) (skip_ws s) with
  | Parsed v rest =>
      match skip_ws rest with
      | EmptyString => Ok v
      | String _ _ => Raise JSONDecodeError
      end
  | Failed | OutOfFuel => Raise JSONDecodeError
  end.

(** ** The operations of Python the handler uses *)

(** [repr(v)]. *)
Fixpoint py_repr (v : pyval) : string :=
  match v with
  | PyNone => "None"
  | PyBool b => if b then "True" else "False"
  | PyInt z => str_of_int z
  | PyFloat f => repr_float py f
  | PyStr s => repr_str py s
  | PyList items => "[" ++ join ", " (map py_repr items) ++ "]"
  | PyDict entries =>
      "{" ++ join ", "
               (map (fun kv => repr_str py (fst kv) ++ ": " ++ py_repr (snd kv))
                    entries)
          ++ "}"
  end.

(** [str(v)], which is also [format(v, '')]: what a replacement field of an
    f-string or of [str.format] puts for [v]. *)
Definition py_str (v : pyval) : string :=
  match v with
  | PyStr s => s
  | _ => py_repr v
  end.

(** [int(v)]. *)
Definition py_int (v : pyval) : res Z :=
  match v with
  | PyInt z => Ok z
  | PyBool b => Ok (if b then 1 else 0)
  | PyFloat S754_nan => Raise ValueError
  | PyFloat (S754_infinity _) => Raise OverflowError
  | PyFloat (S754_zero _) => Ok 0
  | PyFloat (S754_finite sign m e) =>
      let magnitude := Z.shiftl (Z.pos m) e in
      Ok (if sign then - magnitude else magnitude)
  | PyStr s =>
      match int_of_str py s with
      | Some z => Ok z
      | None => Raise ValueError
      end
  | PyNone | PyList _ | PyDict _ => Raise TypeError
  end.

(** [obj.get(key, default)]: only a [dict] has the method. *)
Definition py_get (obj : pyval) (key : string) (default : pyval) : res pyval :=
  match obj with
  | PyDict d =>
      match dict_lookup key d with
      | Some v => Ok v
      | None => Ok default
      end
  | _ => Raise AttributeError
  end.

(** [obj[key]] for a [str] key. *)
Definition subscript (obj : pyval) (key : string) : res pyval :=
  match obj with
  | PyDict d =>
      match dict_lookup key d with
      | Some v => Ok v
      | None => Raise (KeyError key)
      end
  | _ => Raise TypeError
  end.

(** [v == s] for a [str] [s]. *)
Definition eq_str (v : pyval) (s : string) : bool :=
  match v with
  | PyStr t => String.eqb t s
  | _ => false
  end.

(** [key in obj] for a [str] key. *)
Definition py_in (key : string) (obj : pyval) : res bool :=
  match obj with
  | PyDict d =>
      Ok (match dict_lookup key d with Some _ => true | None => false end)
  | PyList items => Ok (existsb (fun x => eq_str x key) items)
  | PyStr s =>
      Ok (match index 0 key s with Some _ => true | None => false end)
  | _ => Raise TypeError
  end.

(** What [for x in obj] goes through. *)
Definition py_iter (obj : pyval) : res (list pyval) :=
  match obj with
  | PyList items => Ok items
  | PyDict d => Ok (map (fun kv => PyStr (fst kv)) d)
  | PyStr s => Ok (map PyStr (characters s))
  | _ => Raise TypeError
  end.

(** [template.format] with keyword arguments, for a template whose
    replacement fields are plain names, as those of the program are.  [field] is the name being
    read inside braces, if any. *)
Fixpoint format_from (s : string) (field : option string)
    (kwargs : list (string * pyval)) : res string :=
  match s with
  | EmptyString =>
      match field with
      | None => Ok EmptyString
      | Some _ => Raise ValueError
      end
  | String c s' =>
      match field with
      | None =>
          if ord c =? 123 then
            match s' with
            | EmptyString => Raise ValueError
            | String d s'' =>
                if ord d =? 123
                then (r <- format_from s'' None kwargs ;; Ok (String c r))%res
                else format_from s' (Some EmptyString) kwargs
            end
          else if ord c =? 125 then
            match s' with
            | EmptyString => Raise ValueError
            | String d s'' =>
                if ord d =? 125
                then (r <- format_from s'' None kwargs ;; Ok (String c r))%res
                else Raise ValueError
            end
          else (r <- format_from s' None kwargs ;; Ok (String c r))%res
      | Some name =>
          if ord c =? 125 then
            match dict_lookup name kwargs with
            | None => Raise (KeyError name)
            | Some v =>
                (r <- format_from s' None kwargs ;; Ok (py_str v ++ r))%res
            end
          else format_from s' (Some (name ++ String c EmptyString)) kwargs
      end
  end.

Definition py_format (template : string) (kwargs : list (string * pyval))
  : res string :=
  format_from template None kwargs.

(** ** The prompt (lines 14-47 and 183-186)

    [GEMINI_QUIZ_PROMPT], cut at its two replacement fields. *)
Definition prompt_head : string :=
  "
You are an expert educational assessment creator. Your task is to generate a comprehensive quiz based on the provided text.

**INSTRUCTIONS:**
1. **Source Text:** Use ONLY the following text as the source material:
   ---
   ".

Definition prompt_middle : string :=
  "
   ---
2. **Question Count:** Generate exactly ".

Definition prompt_tail : string :=
  " questions.
3. **Question Types:** Ensure a diverse mix of the following types: Multiple Choice (MC), True/False (TF), and Short Answer (SA).
4. **Output Format:** You MUST return the output as a single, valid JSON object with two top-level keys: " ++ DQ ++ "quiz" ++ DQ ++ " and " ++ DQ ++ "answers" ++ DQ ++ ". Do not include any text outside of the JSON object.

**JSON STRUCTURE EXAMPLE:**
{{
    " ++ DQ ++ "quiz" ++ DQ ++ ": [
        {{
            " ++ DQ ++ "id" ++ DQ ++ ": 1,
            " ++ DQ ++ "type" ++ DQ ++ ": " ++ DQ ++ "MC" ++ DQ ++ ",
            " ++ DQ ++ "question" ++ DQ ++ ": " ++ DQ ++ "What is the primary function of the mitochondria?" ++ DQ ++ ",
            " ++ DQ ++ "options" ++ DQ ++ ": [" ++ DQ ++ "To produce ATP" ++ DQ ++ ", " ++ DQ ++ "To digest waste" ++ DQ ++ ", " ++ DQ ++ "To hold the DNA" ++ DQ ++ "] 
        }},
        // ... more questions
    ],
    " ++ DQ ++ "answers" ++ DQ ++ ": [
        {{
            " ++ DQ ++ "id" ++ DQ ++ ": 1,
            " ++ DQ ++ "correct_answer" ++ DQ ++ ": " ++ DQ ++ "To produce ATP" ++ DQ ++ "
        }},
        // ... corresponding answers
    ]
}}

**START GENERATION NOW.**
".

Definition GEMINI_QUIZ_PROMPT : string :=
  prompt_head ++ "{source_text}" ++ prompt_middle ++ "{num_questions}"
    ++ prompt_tail.

(** The template filled with a count as it is given. *)
Definition prompt_with (source_text : pyval) (count : Z) : res string :=
  py_format GEMINI_QUIZ_PROMPT
    [("source_text", source_text); ("num_questions", PyInt count)].

(** Step 1 of [generate]: the count is capped at 20. *)
Definition build_prompt (source_text : pyval) (num_questions : Z) : res string :=
  prompt_with source_text (Z.min num_questions 20).

(** ** Effects: calls out of the process, early returns, exceptions *)

(** The calls the handler makes to its collaborators. *)
Inductive call : Type :=
| GenerateContent (model contents : string)
| AuthDefault
| BuildDocs
| DocumentsCreate (title : string)
| DocumentsBatchUpdate (document_id : pyval) (text : string).

(** The client made by [genai.Client()].  [generate_content model contents]
    raises or returns a response, given by its [text] attribute, which is
    [None] when the response has no text part. *)
Record GeminiClient : Type := {
  generate_content : string -> string -> res (option string)
}.

(** What the handler finds outside itself while it serves one request. *)
Record World : Type := {
  (** The module variable: [None] when [genai.Client()] raised at start. *)
  gemini_client : option GeminiClient;
  (** [google_requests.default(scopes=SCOPES)]; it raises, for one, when
      the imported module provides no [default]. *)
  auth_default : res unit;
  (** [build('docs', 'v1', credentials=credentials)]. *)
  build_docs : res unit;
  (** [service.documents().create(body={'title': title}).execute()]: the
      created document resource. *)
  documents_create : string -> res (list (string * pyval));
  (** [service.documents().batchUpdate(documentId=..., body=...).execute()]
      with the single [insertText] request at index 1. *)
  documents_batchUpdate : pyval -> string -> res unit
}.

(** The request, as [request.get_json()] reads it: the decoded body, or the
    exception raised for a body that is not JSON. *)
Record Request : Type := {
  get_json : res pyval
}.

(** How a block of statements ends: it falls through with a value, it
    returns [jsonify(body), status] from the view, or it raises. *)
Inductive flow (A : Type) : Type :=
| Next (a : A)
| Return (status : Z) (body : pyval)
| Throw (e : exn).
Arguments Next {A} a.
Arguments Return {A} status body.
Arguments Throw {A} e.

(** A block: the calls it made, in order, and how it ended. *)
Definition Eff (A : Type) : Type := (list call * flow A)%type.

Definition ret {A : Type} (a : A) : Eff A := ([], Next a).
Definition respond {A : Type} (status : Z) (body : pyval) : Eff A :=
  ([], Return status body).
Definition throw {A : Type} (e : exn) : Eff A := ([], Throw e).

(** [m] after the calls [t]. *)
Definition after {A : Type} (t : list call) (m : Eff A) : Eff A :=
  (t ++ fst m, snd m)%list.

Definition bind {A B : Type} (m : Eff A) (k : A -> Eff B) : Eff B :=
  match snd m with
  | Next a => after (fst m) (k a)
  | Return status body => (fst m, Return status body)
  | Throw e => (fst m, Throw e)
  end.

(** A computation without calls. *)
Definition lift {A : Type} (r : res A) : Eff A :=
  match r with
  | Ok a => ret a
  | Raise e => throw e
  end.

(** One call and what the world answers. *)
Definition extern {A : Type} (c : call) (answer : res A) : Eff A :=
  after [c] (lift answer).

(** [try: body / except Exception as e: handler e]. *)
Definition try_except {A : Type} (body : Eff A) (handler : exn -> Eff A) : Eff A :=
  match snd body with
  | Throw e => after (fst body) (handler e)
  | _ => body
  end.

Declare Scope eff_scope.
Delimit Scope eff_scope with eff.
Notation "x <- m ;; k" := (bind m (fun x => k))
  (at level 61, m at next level, right associativity) : eff_scope.

(** ** The document publisher (lines 58-97) *)

Definition get_google_docs_service (w : World) : Eff unit :=
  (credentials <- extern AuthDefault (auth_default w) ;;
   extern BuildDocs (build_docs w))%eff.

Definition create_google_doc (w : World) (service : unit)
    (title content : string) : Eff string :=
  (document <- extern (DocumentsCreate title) (documents_create w title) ;;
   doc_id <- lift (py_get (PyDict document) "documentId" PyNone) ;;
   done <- extern (DocumentsBatchUpdate doc_id content)
             (documents_batchUpdate w doc_id content) ;;
   ret ("https://docs.google.com/document/d/" ++ py_str doc_id ++ "/edit"))%eff.

(** ** Formatting the document (lines 207-222) *)

(** The body of the first loop: the text of one question. *)
Definition question_text (item : pyval) : res string :=
  (id <- subscript item "id" ;;
   ty <- subscript item "type" ;;
   question <- subscript item "question" ;;
   let q_text := py_str id ++ ". (" ++ py_str ty ++ ") " ++ py_str question in
   ty' <- subscript item "type" ;;
   if eq_str ty' "MC" then
     has_options <- py_in "options" item ;;
     if (has_options : bool) then
       options <- subscript item "options" ;;
       opts <- py_iter options ;;
       let options_text :=
         join LF (map (fun opt => "    - " ++ py_str opt) opts) in
       Ok (q_text ++ LF ++ options_text)
     else Ok q_text
   else Ok q_text)%res.

Fixpoint add_questions (items : list pyval) (doc_content : string) : res string :=
  match items with
  | [] => Ok doc_content
  | item :: rest =>
      (q_text <- question_text item ;;
       add_questions rest (doc_content ++ q_text ++ LF ++ LF))%res
  end.

(** The body of the second loop: one line of the answer key. *)
Definition answer_line (item : pyval) : res string :=
  (id <- subscript item "id" ;;
   correct_answer <- subscript item "correct_answer" ;;
   Ok (py_str id ++ ". " ++ py_str correct_answer ++ LF))%res.

Fixpoint add_answers (items : list pyval) (doc_content : string) : res string :=
  match items with
  | [] => Ok doc_content
  | item :: rest =>
      (line <- answer_line item ;;
       add_answers rest (doc_content ++ line))%res
  end.

Definition format_doc (quiz_data : pyval) : res string :=
  let doc_content := "Generated Quiz" ++ LF ++ LF ++ "---" ++ LF in
  let doc_content := doc_content ++ "--- QUESTIONS ---" ++ LF in
  (quiz <- py_get quiz_data "quiz" (PyList []) ;;
   items <- py_iter quiz ;;
   doc_content <- add_questions items doc_content ;;
   let doc_content := doc_content ++ LF ++ LF ++ "--- ANSWER KEY ---" ++ LF in
   answers <- py_get quiz_data "answers" (PyList []) ;;
   items <- py_iter answers ;;
   add_answers items doc_content)%res.

(** ** The view function [generate] (lines 169-239) *)

Definition error_body (message : string) : pyval :=
  PyDict [("error", PyStr message)].

(** Lines 176-178, the body of the first [try]. *)
Definition read_input (request : Request) : res (pyval * Z) :=
  (data <- get_json request ;;
   source_text <- py_get data "source_text" (PyStr "") ;;
   count <- py_get data "num_questions" (PyInt 10) ;;
   num_questions <- py_int count ;;
   Ok (source_text, num_questions))%res.

(** Lines 197-201: the span from the first opening brace to the last closing
    brace, decoded. *)
Definition extract_json (text : string) : res pyval :=
  let json_start := find "{" text in
  let json_end := rfind "}" text + 1 in
  let json_string := slice text json_start json_end in
  json_loads json_string.

Definition generation_error : string :=
  "Failed to generate structured quiz from AI. Try adjusting the source text.".

(** Lines 203-205, the [except] clause of the second [try].  Its log line
    evaluates [response.text[:500] if response else 'N/A'] before the
    [return]: [response] is the local variable, unbound ([None] here) when
    [generate_content] itself raised, and otherwise bound to a response
    object, which is truthy, with its [text]. *)
Definition generation_failed {A : Type} (response : option (option string))
  : Eff A :=
  match response with
  | None => throw (UnboundLocalError "response")
  | Some None => throw TypeError
  | Some (Some text) => respond 500 (error_body generation_error)
  end.

(** The model asked (line 191). *)
Definition gemini_model : string := "gemini-2.5-flash".

(** Lines 188-205: the call to the model and the decoding of its answer. *)
Definition generate_quiz (client : GeminiClient) (prompt : string) : Eff pyval :=
  match generate_content client gemini_model prompt with
  | Raise e => after [GenerateContent gemini_model prompt] (generation_failed None)
  | Ok response =>
      after [GenerateContent gemini_model prompt]
        (try_except
           match response with
           | None => throw AttributeError
           | Some text => lift (extract_json text)
           end
           (fun e => generation_failed (Some response)))
  end.

(** The title of the created document (line 228). *)
Definition doc_title (num_questions : Z) : string :=
  "AI Quiz - " ++ str_of_int (Z.min num_questions 20) ++ " Questions".

(** Lines 233-239, the [except] clauses of the third [try]. *)
Definition export_failed {A : Type} (e : exn) : Eff A :=
  match e with
  | HttpError status None => throw UnicodeDecodeError
  | HttpError status (Some content) =>
      respond 500
        (error_body
           ("Failed to create Google Doc. Check Cloud Run permissions. Error: "
              ++ str_of_int status))
  | _ => respond 500 (error_body "An unexpected error occurred during Docs export.")
  end.

(** Lines 224-239: step 5, the export and its two [except] clauses. *)
Definition export_to_docs (w : World) (num_questions : Z) (doc_content : string)
  : Eff Empty_set :=
  try_except
    (docs_service <- get_google_docs_service w ;;
     doc_url <- create_google_doc w docs_service
                  (doc_title num_questions) doc_content ;;
     respond 200
       (PyDict [("success", PyBool true); ("doc_url", PyStr doc_url)]))%eff
    export_failed.

(** The view function.  It never falls off its end: every path returns a
    response or raises, hence the empty type of its fall-through value. *)
Definition generate (w : World) (request : Request) : Eff Empty_set :=
  match gemini_client w with
  | None =>
      respond 500
        (error_body "Gemini Client not initialized. Check API Key configuration.")
  | Some client =>
      (input <- try_except (lift (read_input request))
                  (fun e => respond 400 (error_body "Invalid input data.")) ;;
       let source_text := fst input in
       let num_questions := snd input in
       prompt <- lift (build_prompt source_text num_questions) ;;
       quiz_data <- generate_quiz client prompt ;;
       doc_content <- lift (format_doc quiz_data) ;;
       export_to_docs w num_questions doc_content)%eff
  end.

End Model.

Arguments Next {A} a.
Arguments Return {A} status body.
Arguments Throw {A} e.

(** ** Closed built-ins *)

(** Built-ins for closed examples: an interpreter that converts no string to
    an [int] and prints every [float] and every quoted [str] as an ellipsis.
    No example below takes a value through one of them. *)
Definition example_builtins : Builtins := {|
  int_of_str := fun _ => None;
  float_of_str := fun _ => S754_nan;
  repr_float := fun _ => "...";
  repr_str := fun _ => "..."
|}.

(** ** The data model of the specification

    A quiz as the specification types it, its image among the values
    [json.loads] produces, and the layout the specification gives for the
    document. *)

Inductive QuestionType : Type := MC | TF | SA.

Definition type_name (t : QuestionType) : string :=
  match t with
  | MC => "MC"
  | TF => "TF"
  | SA => "SA"
  end.

Record QuizItem : Type := {
  item_id : Z;
  item_type : QuestionType;
  item_question : string;
  item_options : option (list string)
}.

Record AnswerItem : Type := {
  answer_id : Z;
  correct_answer : string
}.

Record QuizDocument : Type := {
  quiz : list QuizItem;
  answers : list AnswerItem
}.

Definition item_to_py (q : QuizItem) : pyval :=
  PyDict
    ([("id", PyInt (item_id q));
      ("type", PyStr (type_name (item_type q)));
      ("question", PyStr (item_question q))]
     ++ match item_options q with
        | Some options => [("options", PyList (map PyStr options))]
        | None => []
        end).

Definition answer_to_py (a : AnswerItem) : pyval :=
  PyDict [("id", PyInt (answer_id a));
          ("correct_answer", PyStr (correct_answer a))].

Definition document_to_py (d : QuizDocument) : pyval :=
  PyDict [("quiz", PyList (map item_to_py (quiz d)));
          ("answers", PyList (map answer_to_py (answers d)))].

(** The layout in the specification's words: the question line, then, for an
    item of type MC that carries options, each option on its own line behind
    a marker. *)
Definition spec_question (q : QuizItem) : string :=
  str_of_int (item_id q) ++ ". (" ++ type_name (item_type q) ++ ") "
    ++ item_question q
    ++ match item_type q, item_options q with
       | MC, Some options =>
           LF ++ join LF (map (fun option => "    - " ++ option) options)
       | _, _ => EmptyString
       end.

Definition spec_answer (a : AnswerItem) : string :=
  str_of_int (answer_id a) ++ ". " ++ correct_answer a.

(** The two sections in their fixed order, each listing its items in the
    order of the input sequence. *)
Definition spec_document (d : QuizDocument) : string :=
  "Generated Quiz" ++ LF ++ LF ++ "---" ++ LF
    ++ "--- QUESTIONS ---" ++ LF
    ++ String.concat EmptyString
         (map (fun q => spec_question q ++ LF ++ LF) (quiz d))
    ++ LF ++ LF ++ "--- ANSWER KEY ---" ++ LF
    ++ String.concat EmptyString
         (map (fun a => spec_answer a ++ LF) (answers d)).

(** ** Vocabulary of the statements *)

(** [c in s] for a one-character [c]. *)
Fixpoint has_char (c : ascii) (s : string) : bool :=
  match s with
  | EmptyString => false
  | String a s' => Ascii.eqb a c || has_char c s'
  end.

(** [sub in s], as a proposition. *)
Definition contains (sub s : string) : Prop :=
  exists before rest, s = before ++ sub ++ rest.

(** The prompt holds the sentence that asks for [count] questions. *)
Definition asks_for (count : Z) (prompt : string) : Prop :=
  contains ("Generate exactly " ++ str_of_int count ++ " questions.") prompt.

(** [item] is a [dict] with the key [key]; [item[key]] raises otherwise. *)
Definition has_key (item : pyval) (key : string) : bool :=
  match item with
  | PyDict d =>
      match dict_lookup key d with
      | Some _ => true
      | None => false
      end
  | _ => false
  end.

(** What [data.get(key, default)] gives on an object: the value under
    [key], and [default] when the object has no such key. *)
Definition field_or (d : list (string * pyval)) (key : string)
    (default : pyval) : pyval :=
  match dict_lookup key d with
  | Some v => v
  | None => default
  end.

(** The first [try] of [generate] ends in its [except] clause: the body is
    not JSON, is not a JSON object, or [int] refuses its ["num_questions"],
    which is 10 when the field is missing. *)
Definition input_rejected (py : Builtins) (request : Request) : bool :=
  match get_json request with
  | Raise _ => true
  | Ok (PyDict d) =>
      let count :=
        match dict_lookup "num_questions" d with
        | Some v => v
        | None => PyInt 10
        end in
      match py_int py count with
      | Ok _ => false
      | Raise _ => true
      end
  | Ok _ => true
  end.

(** The document of a quiz without questions and answers. *)
Definition empty_document : string :=
  "Generated Quiz" ++ LF ++ LF ++ "---" ++ LF ++ "--- QUESTIONS ---" ++ LF
    ++ LF ++ LF ++ "--- ANSWER KEY ---" ++ LF.

(** *** Collaborators and requests of the closed examples *)

(** A model that gives the same answer to every prompt. *)
Definition example_client (answer : res (option string)) : GeminiClient :=
  {| generate_content := fun _ _ => answer |}.

(** A world whose Docs API accepts every call and names every new document
    [doc-1]. *)
Definition example_world (client : option GeminiClient) : World := {|
  gemini_client := client;
  auth_default := Ok tt;
  build_docs := Ok tt;
  documents_create := fun title =>
    Ok [("documentId", PyStr "doc-1"); ("title", PyStr title)];
  documents_batchUpdate := fun _ _ => Ok tt
|}.

(** A world in which credential discovery raises. *)
Definition world_without_credentials (client : option GeminiClient) : World := {|
  gemini_client := client;
  auth_default := Raise AttributeError;
  build_docs := Ok tt;
  documents_create := fun title => Ok [("documentId", PyStr "doc-1")];
  documents_batchUpdate := fun _ _ => Ok tt
|}.

Definition example_request (fields : list (string * pyval)) : Request :=
  {| get_json := Ok (PyDict fields) |}.

Definition example_source : pyval := PyStr "Water boils at 100 degrees Celsius.".

Definition example_url : string := "https://docs.google.com/document/d/doc-1/edit".

Definition success_body (doc_url : string) : pyval :=
  PyDict [("success", PyBool true); ("doc_url", PyStr doc_url)].

(** The answer of the specification's extractor example. *)
Definition example_answer : string :=
  "Here is the quiz: {" ++ DQ ++ "quiz" ++ DQ ++ ":[]," ++ DQ ++ "answers"
    ++ DQ ++ ":[]} thanks".

(** An answer whose only question has no ["type"]. *)
Definition untyped_answer : string :=
  "{" ++ DQ ++ "quiz" ++ DQ ++ ": [{" ++ DQ ++ "id" ++ DQ ++ ": 1, "
    ++ DQ ++ "question" ++ DQ ++ ": " ++ DQ ++ "Why?" ++ DQ ++ "}]}".

(** The prompt the examples send. *)
Definition example_prompt (source_text : pyval) (count : Z) : string :=
  match build_prompt example_builtins source_text count with
  | Ok prompt => prompt
  | Raise _ => EmptyString
  end.

(** *** Helpers of the proofs *)

Definition map_res {A B : Type} (f : A -> B) (r : res A) : res B :=
  match r with
  | Ok a => Ok (f a)
  | Raise e => Raise e
  end.

Definition no_brace (s : string) : bool :=
  negb (has_char "{" s) && negb (has_char "}" s).

(** Splits a run of [export_to_docs] by what the world answers to each call. *)
Ltac export_cases w title :=
  unfold export_to_docs, get_google_docs_service, create_google_doc, extern;
  destruct (auth_default w) as [[]|e1];
  [ destruct (build_docs w) as [[]|e2];
    [ destruct (documents_create w title) as [document|e3];
      [ cbn [lift bind after ret throw try_except fst snd app py_get];
        destruct (dict_lookup "documentId" document) as [doc_id|];
        cbn [lift bind after ret throw try_except fst snd app];
        match goal with
        | |- context [documents_batchUpdate w ?i ?c] =>
            destruct (documents_batchUpdate w i c) as [[]|e4]
        end
      | ]
    | ]
  | ];
  cbn [lift bind after ret throw respond try_except fst snd app].

(** Splits on the exception an [except] clause of the export receives. *)
Ltac failed_cases :=
  repeat match goal with
         | e : exn |- _ => destruct e as [| | | | | | | |? [?|]|]
         end;
  cbn [export_failed lift bind after ret throw respond try_except fst snd app].

(** *** Vocabulary of whole runs *)

(** The id [create_google_doc] reads off the created document: [None] when
    the resource has no ["documentId"]. *)
Definition document_id (document : list (string * pyval)) : pyval :=
  match dict_lookup "documentId" document with
  | Some v => v
  | None => PyNone
  end.

(** The link [create_google_doc] returns for an id. *)
Definition doc_link (py : Builtins) (doc_id : pyval) : string :=
  "https://docs.google.com/document/d/" ++ py_str py doc_id ++ "/edit".

(** The calls of a request that is served to its end, in their order. *)
Definition pipeline_calls (prompt title : string) (doc_id : pyval)
    (content : string) : list call :=
  [GenerateContent gemini_model prompt; AuthDefault; BuildDocs;
   DocumentsCreate title; DocumentsBatchUpdate doc_id content].

(** The calls [t] are the first calls of [u]. *)
Definition is_prefix (t u : list call) : Prop :=
  exists rest, u = (t ++ rest)%list.

(** The exception the export stops at: that of the first of its calls that
    raises. *)
Definition export_error (w : World) (title content : string) : option exn :=
  match auth_default w with
  | Raise e => Some e
  | Ok _ =>
      match build_docs w with
      | Raise e => Some e
      | Ok _ =>
          match documents_create w title with
          | Raise e => Some e
          | Ok document =>
              match documents_batchUpdate w (document_id document) content with
              | Raise e => Some e
              | Ok _ => None
              end
          end
      end
  end.

(** A world with credentials whose Docs API gives the same answers to every
    request. *)
Definition docs_world (client : option GeminiClient)
    (created : res (list (string * pyval))) (updated : res unit) : World := {|
  gemini_client := client;
  auth_default := Ok tt;
  build_docs := Ok tt;
  documents_create := fun _ => created;
  documents_batchUpdate := fun _ _ => updated
|}.

(** [f] on each item in turn, up to the first item on which it raises. *)
Fixpoint each {A B : Type} (f : A -> res B) (items : list A) : res (list B) :=
  match items with
  | [] => Ok []
  | item :: rest =>
      (x <- f item ;; xs <- each f rest ;; Ok (x :: xs))%res
  end.

(** The document of the given question texts and answer lines. *)
Definition layout (questions lines : list string) : string :=
  "Generated Quiz" ++ LF ++ LF ++ "---" ++ LF ++ "--- QUESTIONS ---" ++ LF
    ++ String.concat EmptyString (map (fun q => q ++ LF ++ LF) questions)
    ++ LF ++ LF ++ "--- ANSWER KEY ---" ++ LF
    ++ String.concat EmptyString lines.

(** A template without replacement fields, as [str.format] copies it: each
    doubled brace once. *)
Fixpoint halve_braces (s : string) : string :=
  match s with
  | String a (String b s' as rest) =>
      if Ascii.eqb a b && (Ascii.eqb a "{" || Ascii.eqb a "}")
      then String a (halve_braces s')
      else String a (halve_braces rest)
  | _ => s
  end.

(** A quiz of one true/false question, and the answer of a model that puts
    its JSON inside a code fence. *)
Definition example_quiz : QuizDocument := {|
  quiz := [ {| item_id := 1; item_type := TF;
               item_question := "Water boils at 100 degrees Celsius.";
               item_options := None |} ];
  answers := [ {| answer_id := 1; correct_answer := "True" |} ]
|}.

Definition fenced_answer : string :=
  "```json" ++ LF
    ++ "{" ++ DQ ++ "quiz" ++ DQ ++ ": [{" ++ DQ ++ "id" ++ DQ ++ ": 1, "
    ++ DQ ++ "type" ++ DQ ++ ": " ++ DQ ++ "TF" ++ DQ ++ ", "
    ++ DQ ++ "question" ++ DQ ++ ": " ++ DQ
    ++ "Water boils at 100 degrees Celsius." ++ DQ ++ "}], "
    ++ DQ ++ "answers" ++ DQ ++ ": [{" ++ DQ ++ "id" ++ DQ ++ ": 1, "
    ++ DQ ++ "correct_answer" ++ DQ ++ ": " ++ DQ ++ "True" ++ DQ ++ "}]}"
    ++ LF ++ "```".

(** An answer whose ["quiz"] is [null]. *)
Definition null_quiz_answer : string :=
  "{" ++ DQ ++ "quiz" ++ DQ ++ ": null}".

(** The fields of the request of the examples. *)
Definition example_fields : list (string * pyval) :=
  [("source_text", example_source); ("num_questions", PyInt 5)].


(** * Properties *)


(** ** Strings: append and length *)

Lemma append_assoc (a b c : string) : (a ++ b) ++ c = a ++ (b ++ c).
Proof.
  induction a as [|x a IH]; simpl.
  - reflexivity.
  - now rewrite IH.
Qed.

Lemma append_empty_r (a : string) : a ++ EmptyString = a.
Proof.
  induction a as [|x a IH]; simpl; [reflexivity | now rewrite IH].
Qed.

(** ** The decoder never runs out of fuel *)

Lemma skip_ws_le (s : string) :
  (String.length (skip_ws s) <= String.length s)%nat.
Proof.
  induction s as [|c s IH]; simpl.
  - lia.
  - destruct (is_ws c); simpl; lia.
Qed.

Lemma drop_prefix (p s : string) :
  prefix p s = true ->
  (String.length (drop (String.length p) s) + String.length p
   = String.length s)%nat.
Proof.
  revert s.
  induction p as [|a p IH]; intros s H.
  - destruct s; simpl; lia.
  - destruct s as [|b s]; simpl in H; [discriminate|].
    destruct (ascii_dec a b); [|discriminate].
    specialize (IH s H). simpl. lia.
Qed.

Lemma prepend_some (p : string) (x : option (string * string)) v r :
  prepend p x = Some (v, r) -> exists v', x = Some (v', r).
Proof.
  destruct x as [[v' r']|]; simpl; intros H; [|discriminate].
  injection H as _ ->. now exists v'.
Qed.

Lemma scanstring_shorter_bounded (n : nat) :
  forall s v r,
    (String.length s <= n)%nat ->
    scanstring s = Some (v, r) ->
    (String.length r < String.length s)%nat.
Proof.
  induction n as [|n IH]; intros s v r Hn H.
  - destruct s; simpl in *; [discriminate | lia].
  - destruct s as [|c s1]; [discriminate|].
    simpl in H.
    destruct (ord c =? 34).
    { injection H as _ <-. simpl. lia. }
    destruct (ord c =? 92).
    2:{ destruct (ord c <=? 31); [discriminate|].
        apply prepend_some in H as [v' H].
        apply IH in H; simpl in *; lia. }
    destruct s1 as [|e s2]; [discriminate|].
    destruct (ord e =? 117).
    2:{ destruct (simple_escape e); [|discriminate].
        apply prepend_some in H as [v' H].
        apply IH in H; simpl in *; lia. }
    destruct s2 as [|h1 [|h2 [|h3 [|h4 s3]]]]; try discriminate.
    destruct (hex4 h1 h2 h3 h4) as [u|]; [|discriminate].
    assert (Hs3 : forall v', scanstring s3 = Some (v', r) ->
                             (String.length r < String.length s3)%nat).
    { intros v' H'. apply IH in H'; simpl in *; lia. }
    simpl.
    destruct s3 as [|b [|w [|k1 [|k2 [|k3 [|k4 s4]]]]]];
      try (apply prepend_some in H as [v' H]; apply Hs3 in H; simpl in *; lia).
    destruct (if is_high_surrogate u && (ord b =? 92) && (ord w =? 117)
              then hex4 k1 k2 k3 k4 else None) as [u2|];
      [destruct (is_low_surrogate u2)|];
      apply prepend_some in H as [v' H];
      try (apply Hs3 in H; simpl in *; lia).
    apply IH in H; simpl in *; lia.
Qed.

Lemma scanstring_shorter s v r :
  scanstring s = Some (v, r) -> (String.length r < String.length s)%nat.
Proof.
  apply (scanstring_shorter_bounded (String.length s)). lia.
Qed.

Lemma span_digits_le (s : string) :
  (String.length (snd (span_digits s)) <= String.length s)%nat.
Proof.
  induction s as [|c s IH]; simpl.
  - lia.
  - destruct (is_digit c); simpl.
    + destruct (span_digits s); simpl in *; lia.
    + lia.
Qed.

Section Decoder.

Variable py : Builtins.

Lemma scan_integer_shorter s lit r :
  scan_integer s = Some (lit, r) -> (String.length r < String.length s)%nat.
Proof.
  unfold scan_integer.
  assert (D : forall c s2 sign,
             (if ord c =? 48 then Some (sign ++ "0", s2)
              else if is_digit c
                   then let (d, r0) := span_digits s2 in Some (sign ++ String c d, r0)
                   else None) = Some (lit, r) ->
             (String.length r <= String.length s2)%nat).
  { intros c s2 sign H.
    destruct (ord c =? 48); [injection H as _ <-; lia|].
    destruct (is_digit c); [|discriminate].
    pose proof (span_digits_le s2) as L.
    destruct (span_digits s2). injection H as _ <-. exact L. }
  destruct s as [|c s']; [discriminate|].
  destruct (ord c =? 45).
  - destruct s' as [|c' s2]; [discriminate|].
    intros H. apply D in H. simpl. lia.
  - intros H. apply D in H. simpl. lia.
Qed.

Lemma scan_fraction_le s :
  (String.length (snd (scan_fraction s)) <= String.length s)%nat.
Proof.
  unfold scan_fraction.
  destruct s as [|p [|d s']]; simpl; try lia.
  destruct ((ord p =? 46) && is_digit d); simpl; [|lia].
  pose proof (span_digits_le s') as L.
  destruct (span_digits s'); simpl in *; lia.
Qed.

Lemma scan_exponent_le s :
  (String.length (snd (scan_exponent s)) <= String.length s)%nat.
Proof.
  unfold scan_exponent.
  destruct s as [|e s1]; simpl; [lia|].
  destruct ((ord e =? 101) || (ord e =? 69)); simpl; [|lia].
  assert (L : forall t, (String.length t <= String.length s1)%nat ->
                        forall sign,
                        (String.length
                           (snd (let (ds, r) := span_digits t in
                                 match ds with
                                 | EmptyString => (EmptyString, String e s1)
                                 | String _ _ => (String e (sign ++ ds), r)
                                 end)) <= S (String.length s1))%nat).
  { intros t Ht sign. pose proof (span_digits_le t) as L.
    destruct (span_digits t) as [ds r]; destruct ds; simpl in *; lia. }
  destruct s1 as [|c s']; [apply L; simpl; lia|].
  destruct ((ord c =? 45) || (ord c =? 43)); apply L; simpl; lia.
Qed.

Lemma scan_number_shorter s v r :
  scan_number py s = Parsed v r -> (String.length r < String.length s)%nat.
Proof.
  unfold scan_number.
  destruct (scan_integer s) as [[integer r1]|] eqn:E; [|discriminate].
  apply scan_integer_shorter in E.
  pose proof (scan_fraction_le r1) as F.
  destruct (scan_fraction r1) as [frac r2].
  pose proof (scan_exponent_le r2) as G.
  destruct (scan_exponent r2) as [exp r3]. simpl in *.
  destruct frac, exp; intros H; injection H as _ <-; lia.
Qed.

Lemma scan_atom_shorter s v r :
  scan_atom py s = Parsed v r -> (String.length r < String.length s)%nat.
Proof.
  unfold scan_atom.
  repeat match goal with
         | |- (if prefix ?p s then _ else _) = _ -> _ =>
             destruct (prefix p s) eqn:?;
             [ intros H; injection H as _ <-;
               match goal with
               | P : prefix _ _ = true |- _ =>
                   apply drop_prefix in P; simpl in P; lia
               end | ]
         end.
  apply scan_number_shorter.
Qed.

Lemma scan_shorter (fuel : nat) :
  (forall s v r, scan_once py fuel s = Parsed v r ->
                 (String.length r < String.length s)%nat) /\
  (forall s acc v r, parse_array py fuel s acc = Parsed v r ->
                     (String.length r < String.length s)%nat) /\
  (forall s acc v r, parse_object py fuel s acc = Parsed v r ->
                     (String.length r < String.length s)%nat).
Proof.
  induction fuel as [|fuel (IHonce & IHarray & IHobject)].
  - repeat split; intros; discriminate.
  - repeat split.
    + intros s v r H. simpl in H.
      destruct s as [|c s']; [discriminate|].
      destruct (ord c =? 34).
      { destruct (scanstring s') as [[x r']|] eqn:E; [|discriminate].
        injection H as _ <-. apply scanstring_shorter in E. simpl. lia. }
      destruct (ord c =? 123).
      { pose proof (skip_ws_le s') as L.
        destruct (skip_ws s') as [|d r']; [discriminate|].
        destruct (ord d =? 125).
        - injection H as _ <-. simpl in *. lia.
        - apply IHobject in H. simpl in *. lia. }
      destruct (ord c =? 91).
      { pose proof (skip_ws_le s') as L.
        destruct (skip_ws s') as [|d r']; [discriminate|].
        destruct (ord d =? 93).
        - injection H as _ <-. simpl in *. lia.
        - apply IHarray in H. simpl in *. lia. }
      now apply scan_atom_shorter in H.
    + intros s acc v r H. simpl in H.
      destruct (scan_once py fuel s) as [x r1| |] eqn:E; try discriminate.
      apply IHonce in E.
      pose proof (skip_ws_le r1) as L.
      destruct (skip_ws r1) as [|d r2]; [discriminate|].
      destruct (ord d =? 93).
      { injection H as _ <-. simpl in *. lia. }
      destruct (ord d =? 44); [|discriminate].
      apply IHarray in H. pose proof (skip_ws_le r2). simpl in *. lia.
    + intros s acc v r H. simpl in H.
      destruct s as [|q s1]; [discriminate|].
      destruct (ord q =? 34); [|discriminate].
      destruct (scanstring s1) as [[key r1]|] eqn:E; [|discriminate].
      apply scanstring_shorter in E.
      pose proof (skip_ws_le r1) as L1.
      destruct (skip_ws r1) as [|colon r2]; [discriminate|].
      destruct (ord colon =? 58); [|discriminate].
      destruct (scan_once py fuel (skip_ws r2)) as [x r3| |] eqn:E3;
        try discriminate.
      apply IHonce in E3.
      pose proof (skip_ws_le r2) as L2.
      pose proof (skip_ws_le r3) as L3.
      destruct (skip_ws r3) as [|d r4]; [discriminate|].
      destruct (ord d =? 125).
      { injection H as _ <-. simpl in *. lia. }
      destruct (ord d =? 44); [|discriminate].
      apply IHobject in H. pose proof (skip_ws_le r4). simpl in *. lia.
Qed.

Lemma scan_fuel (fuel : nat) :
  (forall s, (2 * String.length s + 1 <= fuel)%nat ->
             scan_once py fuel s <> OutOfFuel) /\
  (forall s acc, (2 * String.length s + 2 <= fuel)%nat ->
                 parse_array py fuel s acc <> OutOfFuel) /\
  (forall s acc, (2 * String.length s + 2 <= fuel)%nat ->
                 parse_object py fuel s acc <> OutOfFuel).
Proof.
  induction fuel as [|fuel (IHonce & IHarray & IHobject)].
  - repeat split; intros; lia.
  - repeat split.
    + intros s Hf. simpl.
      destruct s as [|c s']; [discriminate|].
      destruct (ord c =? 34).
      { destruct (scanstring s') as [[x r']|]; discriminate. }
      destruct (ord c =? 123).
      { pose proof (skip_ws_le s') as L.
        destruct (skip_ws s') as [|d r']; [discriminate|].
        destruct (ord d =? 125); [discriminate|].
        apply IHobject. simpl in *. lia. }
      destruct (ord c =? 91).
      { pose proof (skip_ws_le s') as L.
        destruct (skip_ws s') as [|d r']; [discriminate|].
        destruct (ord d =? 93); [discriminate|].
        apply IHarray. simpl in *. lia. }
      unfold scan_atom, scan_number.
      repeat match goal with
             | |- (if ?b then _ else _) <> _ => destruct b; [discriminate|]
             end.
      destruct (scan_integer (String c s')) as [[i r1]|]; [|discriminate].
      destruct (scan_fraction r1) as [frac r2].
      destruct (scan_exponent r2) as [exp r3].
      destruct frac, exp; discriminate.
    + intros s acc Hf. simpl.
      destruct (scan_once py fuel s) as [x r1| |] eqn:E; try discriminate.
      * apply (proj1 (scan_shorter fuel)) in E.
        pose proof (skip_ws_le r1) as L.
        destruct (skip_ws r1) as [|d r2]; [discriminate|].
        destruct (ord d =? 93); [discriminate|].
        destruct (ord d =? 44); [|discriminate].
        apply IHarray. pose proof (skip_ws_le r2). simpl in *. lia.
      * exfalso. revert E. apply IHonce. lia.
    + intros s acc Hf. simpl.
      destruct s as [|q s1]; [discriminate|].
      destruct (ord q =? 34); [|discriminate].
      destruct (scanstring s1) as [[key r1]|] eqn:E; [|discriminate].
      apply scanstring_shorter in E.
      pose proof (skip_ws_le r1) as L1.
      destruct (skip_ws r1) as [|colon r2]; [discriminate|].
      destruct (ord colon =? 58); [|discriminate].
      pose proof (skip_ws_le r2) as L2.
      destruct (scan_once py fuel (skip_ws r2)) as [x r3| |] eqn:E3;
        try discriminate.
      * apply (proj1 (scan_shorter fuel)) in E3.
        pose proof (skip_ws_le r3) as L3.
        destruct (skip_ws r3) as [|d r4]; [discriminate|].
        destruct (ord d =? 125); [discriminate|].
        destruct (ord d =? 44); [|discriminate].
        apply IHobject. pose proof (skip_ws_le r4). simpl in *. lia.
      * exfalso. revert E3. apply IHonce. simpl in *. lia.
Qed.

(** [json_loads] never takes its last branch for lack of fuel. *)
Lemma json_loads_fuel (s : string) :
  scan_once py (enough_fuel s) (skip_ws s) <> OutOfFuel.
Proof.
  apply (proj1 (scan_fuel (enough_fuel s))).
  pose proof (skip_ws_le s). unfold enough_fuel. lia.
Qed.

End Decoder.


(** ** Searching and slicing *)

Lemma find_from_absent (c : ascii) (s : string) :
  has_char c s = false -> forall i, find_from c s i = -1.
Proof.
  induction s as [|a s IH]; simpl; intros H i.
  - reflexivity.
  - apply orb_false_iff in H as [Ha Hs].
    rewrite Ha. now apply IH.
Qed.

(** [rfind] answers [-1] or the index of an occurrence. *)
Lemma rfind_from_spec (c : ascii) (s : string) :
  forall i last,
    rfind_from c s i last = last \/
    exists k, (k < String.length s)%nat /\
              rfind_from c s i last = i + Z.of_nat k /\
              String.get k s = Some c.
Proof.
  induction s as [|a s IH]; intros i last; simpl.
  - now left.
  - destruct (IH (i + 1) (if Ascii.eqb a c then i else last))
      as [E | (k & Hk & E & G)].
    + rewrite E. destruct (Ascii.eqb a c) eqn:Hac.
      * right. exists 0%nat. apply Ascii.eqb_eq in Hac. subst a.
        repeat split; [lia | lia].
      * now left.
    + right. exists (S k). repeat split; [lia | lia | exact G].
Qed.

Lemma substring_none (n : nat) (s : string) : substring n 0 s = EmptyString.
Proof.
  revert s. induction n as [|n IH]; intros [|a s]; simpl; auto.
Qed.

Lemma substring_one (k : nat) (s : string) (c : ascii) :
  String.get k s = Some c -> substring k 1 s = String c EmptyString.
Proof.
  revert s. induction k as [|k IH]; intros [|a s] H; simpl in *;
    try discriminate.
  - injection H as ->. now destruct s.
  - now apply IH.
Qed.

(** Without an opening brace the span is empty or a lone closing brace. *)
Lemma span_without_open_brace (text : string) :
  has_char "{" text = false ->
  slice text (find "{" text) (rfind "}" text + 1) = EmptyString \/
  slice text (find "{" text) (rfind "}" text + 1) = "}".
Proof.
  intros H. unfold find. rewrite (find_from_absent _ _ H).
  unfold slice, rfind.
  assert (Ha : slice_bound (-1) (len text) = Z.max 0 (len text - 1)).
  { unfold slice_bound. change (-1 <? 0) with true. cbv iota. f_equal. lia. }
  rewrite Ha. clear Ha. unfold len, slice_bound.
  destruct (rfind_from_spec "}" text 0 (-1)) as [E | (k & Hk & E & G)];
    rewrite E.
  - left. change (-1 + 1 <? 0) with false. cbv iota.
    replace (Z.to_nat (Z.min (-1 + 1) (Z.of_nat (String.length text))
                       - Z.max 0 (Z.of_nat (String.length text) - 1)))
      with 0%nat by lia.
    apply substring_none.
  - replace (0 + Z.of_nat k + 1 <? 0) with false by lia.
    destruct (Nat.eq_dec (S k) (String.length text)) as [Hlast | Hmid].
    + right.
      replace (Z.to_nat (Z.max 0 (Z.of_nat (String.length text) - 1)))
        with k by lia.
      replace (Z.to_nat (Z.min (0 + Z.of_nat k + 1)
                           (Z.of_nat (String.length text))
                         - Z.max 0 (Z.of_nat (String.length text) - 1)))
        with 1%nat by lia.
      now apply substring_one.
    + left.
      replace (Z.to_nat (Z.min (0 + Z.of_nat k + 1)
                           (Z.of_nat (String.length text))
                         - Z.max 0 (Z.of_nat (String.length text) - 1)))
        with 0%nat by lia.
      apply substring_none.
Qed.

Section Prompt.

Variable py : Builtins.

Lemma extract_without_open_brace (text : string) :
  has_char "{" text = false ->
  extract_json py text = Raise JSONDecodeError.
Proof.
  intros H. unfold extract_json.
  destruct (span_without_open_brace text H) as [-> | ->]; reflexivity.
Qed.

(** ** The prompt *)

(** Text without braces is copied. *)
Lemma format_from_literal (lit rest : string) kwargs :
  no_brace lit = true ->
  format_from py (lit ++ rest) None kwargs
  = map_res (append lit) (format_from py rest None kwargs).
Proof.
  unfold no_brace.
  induction lit as [|c lit IH]; intros H.
  - simpl. now destruct (format_from py rest None kwargs).
  - simpl in H. apply andb_true_iff in H as [H1 H2].
    apply negb_true_iff, orb_false_iff in H1 as [H1 H1'].
    apply negb_true_iff, orb_false_iff in H2 as [H2 H2'].
    simpl append. simpl format_from.
    assert ((ord c =? 123) = false) as ->.
    { apply Z.eqb_neq. intros E. unfold ord in E.
      apply Ascii.eqb_neq in H1. apply H1.
      rewrite <- (ascii_nat_embedding c). 
      replace (nat_of_ascii c) with 123%nat by lia. reflexivity. }
    assert ((ord c =? 125) = false) as ->.
    { apply Z.eqb_neq. intros E. unfold ord in E.
      apply Ascii.eqb_neq in H2. apply H2.
      rewrite <- (ascii_nat_embedding c). 
      replace (nat_of_ascii c) with 125%nat by lia. reflexivity. }
    rewrite IH.
    + now destruct (format_from py rest None kwargs).
    + rewrite H1', H2'. reflexivity.
Qed.

(** The two fields of the template are filled in place; what follows the
    count starts with [" questions."]. *)
Lemma prompt_with_shape :
  exists tail,
    forall source_text count,
      prompt_with py source_text count
      = Ok (prompt_head ++ py_str py source_text ++ prompt_middle
              ++ str_of_int count ++ " questions." ++ tail).
Proof.
  assert (T : forall kwargs, exists tail,
             format_from py prompt_tail None kwargs
             = Ok (" questions." ++ tail)).
  { intros kwargs. eexists. lazy. reflexivity. }
  destruct (T []) as [tail Htail].
  lazy in Htail. injection Htail as Htail. subst tail.
  eexists. intros source_text count.
  unfold prompt_with, py_format, GEMINI_QUIZ_PROMPT.
  rewrite format_from_literal by reflexivity.
  simpl (format_from py ("{source_text}" ++ _) _ _).
  reflexivity.
Qed.

Lemma prompt_with_ok source_text count :
  exists prompt, prompt_with py source_text count = Ok prompt.
Proof.
  destruct prompt_with_shape as [tail H]. rewrite H. eauto.
Qed.

Lemma prompt_with_asks source_text count prompt :
  prompt_with py source_text count = Ok prompt -> asks_for count prompt.
Proof.
  destruct prompt_with_shape as [tail H]. rewrite H.
  intros E. injection E as <-.
  exists (prompt_head ++ py_str py source_text ++ LF ++ "   ---" ++ LF
            ++ "2. **Question Count:** ").
  exists tail. rewrite !append_assoc. reflexivity.
Qed.

End Prompt.


Lemma concat_cons (x : string) (xs : list string) :
  String.concat EmptyString (x :: xs) = x ++ String.concat EmptyString xs.
Proof.
  destruct xs; simpl.
  - now rewrite append_empty_r.
  - reflexivity.
Qed.

Section Formatter.

Variable py : Builtins.

(** ** The formatter on a typed quiz *)

Lemma question_text_typed (q : QuizItem) :
  question_text py (item_to_py q) = Ok (spec_question q).
Proof.
  destruct q as [id ty question options].
  unfold spec_question, item_to_py; simpl item_id; simpl item_type;
    simpl item_question; simpl item_options.
  destruct ty, options as [options|]; cbn -[str_of_int append join LF];
    rewrite ?map_map, ?append_empty_r; repeat rewrite append_assoc;
    reflexivity.
Qed.

Lemma add_questions_typed (qs : list QuizItem) :
  forall doc_content,
    add_questions py (map item_to_py qs) doc_content
    = Ok (doc_content
            ++ String.concat EmptyString
                 (map (fun q => spec_question q ++ LF ++ LF) qs)).
Proof.
  induction qs as [|q qs IH]; intros doc_content.
  - simpl. now rewrite append_empty_r.
  - rewrite map_cons, (map_cons _ q), concat_cons.
    cbn [add_questions]. rewrite question_text_typed.
    cbn [res_bind]. rewrite IH.
    now rewrite !append_assoc.
Qed.

Lemma answer_line_typed (a : AnswerItem) :
  answer_line py (answer_to_py a) = Ok (spec_answer a ++ LF).
Proof.
  destruct a as [id answer].
  cbn -[str_of_int append LF]. unfold spec_answer. simpl answer_id.
  simpl correct_answer. now rewrite !append_assoc.
Qed.

Lemma add_answers_typed (l : list AnswerItem) :
  forall doc_content,
    add_answers py (map answer_to_py l) doc_content
    = Ok (doc_content
            ++ String.concat EmptyString (map (fun a => spec_answer a ++ LF) l)).
Proof.
  induction l as [|a l IH]; intros doc_content.
  - simpl. now rewrite append_empty_r.
  - rewrite map_cons, (map_cons _ a), concat_cons.
    cbn [add_answers]. rewrite answer_line_typed.
    cbn [res_bind]. rewrite IH.
    now rewrite !append_assoc.
Qed.

(** C7.  On every quiz of the specification's data model the formatter
    returns the layout of the specification: the QUESTIONS section with one
    line [id. (type) question] per item, followed by the marked option lines
    only for an MC item that carries options, then the ANSWER KEY section
    with one line [id. correct_answer] per answer, both in input order. *)
Theorem formatter_follows_spec_layout (d : QuizDocument) :
  format_doc py (document_to_py d) = Ok (spec_document d).
Proof.
  unfold format_doc, document_to_py.
  cbn [py_get dict_lookup String.eqb Ascii.eqb Bool.eqb res_bind py_iter].
  rewrite add_questions_typed. cbn [res_bind].
  rewrite add_answers_typed.
  unfold spec_document. now rewrite !append_assoc.
Qed.

End Formatter.

Section Handler.

Variable py : Builtins.

(** ** Items the formatter cannot read *)

Lemma subscript_missing (item : pyval) (key : string) :
  has_key item key = false -> exists e, subscript item key = Raise e.
Proof.
  destruct item; simpl; eauto.
  destruct (dict_lookup key entries); [discriminate | eauto].
Qed.

Lemma question_text_missing (item : pyval) (key : string) :
  In key ["id"; "type"; "question"] ->
  has_key item key = false ->
  exists e, question_text py item = Raise e.
Proof.
  intros Hin Hkey. apply subscript_missing in Hkey as [e He].
  unfold question_text.
  destruct Hin as [<- | [<- | [<- | []]]].
  - rewrite He. simpl. eauto.
  - destruct (subscript item "id"); simpl; [|eauto].
    rewrite He. simpl. eauto.
  - destruct (subscript item "id"); simpl; [|eauto].
    destruct (subscript item "type"); simpl; [|eauto].
    rewrite He. simpl. eauto.
Qed.

Lemma answer_line_missing (item : pyval) (key : string) :
  In key ["id"; "correct_answer"] ->
  has_key item key = false ->
  exists e, answer_line py item = Raise e.
Proof.
  intros Hin Hkey. apply subscript_missing in Hkey as [e He].
  unfold answer_line.
  destruct Hin as [<- | [<- | []]].
  - rewrite He. simpl. eauto.
  - destruct (subscript item "id"); simpl; [|eauto].
    rewrite He. simpl. eauto.
Qed.

(** A loop stops at the first item whose body raises. *)
Lemma add_questions_raises (items : list pyval) (item : pyval) :
  In item items ->
  (exists e, question_text py item = Raise e) ->
  forall doc_content, exists e, add_questions py items doc_content = Raise e.
Proof.
  induction items as [|first items IH]; intros Hin Hbad doc_content.
  - contradiction.
  - cbn [add_questions]. destruct Hin as [-> | Hin].
    + destruct Hbad as [e ->]. simpl. eauto.
    + destruct (question_text py first); simpl; eauto.
Qed.

Lemma add_answers_raises (items : list pyval) (item : pyval) :
  In item items ->
  (exists e, answer_line py item = Raise e) ->
  forall doc_content, exists e, add_answers py items doc_content = Raise e.
Proof.
  induction items as [|first items IH]; intros Hin Hbad doc_content.
  - contradiction.
  - cbn [add_answers]. destruct Hin as [-> | Hin].
    + destruct Hbad as [e ->]. simpl. eauto.
    + destruct (answer_line py first); simpl; eauto.
Qed.

Lemma format_doc_bad_question d items item :
  dict_lookup "quiz" d = Some (PyList items) ->
  In item items ->
  (exists e, question_text py item = Raise e) ->
  exists e, format_doc py (PyDict d) = Raise e.
Proof.
  intros Hquiz Hin Hbad. unfold format_doc. cbn [py_get].
  rewrite Hquiz. cbn [res_bind py_iter].
  destruct (add_questions_raises items item Hin Hbad
              (("Generated Quiz" ++ LF ++ LF ++ "---" ++ LF)
                 ++ "--- QUESTIONS ---" ++ LF)) as [e ->].
  simpl. eauto.
Qed.

Lemma format_doc_bad_answer d items item :
  dict_lookup "answers" d = Some (PyList items) ->
  In item items ->
  (exists e, answer_line py item = Raise e) ->
  exists e, format_doc py (PyDict d) = Raise e.
Proof.
  intros Hanswers Hin Hbad. unfold format_doc. cbn [py_get].
  rewrite Hanswers.
  destruct (dict_lookup "quiz" d) as [quiz|]; cbn [res_bind].
  - destruct (py_iter quiz) as [questions|]; cbn [res_bind]; [|eauto].
    destruct (add_questions py questions _) as [doc_content|];
      cbn [res_bind py_iter]; [|eauto].
    apply (add_answers_raises items item Hin Hbad).
  - cbn [py_iter res_bind add_questions].
    apply (add_answers_raises items item Hin Hbad).
Qed.

(** ** The steps of [generate] *)

Lemma after_nil {A : Type} (m : Eff A) : after [] m = m.
Proof. now destruct m. Qed.

Lemma generate_invalid w request client e :
  gemini_client w = Some client ->
  read_input py request = Raise e ->
  generate py w request = ([], Return 400 (error_body "Invalid input data.")).
Proof.
  intros Hclient Hinput. unfold generate. rewrite Hclient, Hinput.
  reflexivity.
Qed.

(** Past the first [try], the view is the model call, the formatter and the
    export, in this order. *)
Lemma generate_valid w request client source_text num_questions prompt :
  gemini_client w = Some client ->
  read_input py request = Ok (source_text, num_questions) ->
  build_prompt py source_text num_questions = Ok prompt ->
  generate py w request
  = bind (generate_quiz py client prompt)
      (fun quiz_data =>
         bind (lift (format_doc py quiz_data))
           (fun doc_content => export_to_docs py w num_questions doc_content)).
Proof.
  intros Hclient Hinput Hprompt. unfold generate.
  rewrite Hclient, Hinput.
  cbn [lift try_except ret snd fst bind after app].
  rewrite Hprompt.
  cbn [lift try_except ret snd fst bind after app].
  now rewrite !after_nil.
Qed.

Lemma generate_quiz_raises client prompt e :
  generate_content client gemini_model prompt = Raise e ->
  generate_quiz py client prompt
  = ([GenerateContent gemini_model prompt], Throw (UnboundLocalError "response")).
Proof.
  intros H. unfold generate_quiz. now rewrite H.
Qed.

Lemma generate_quiz_no_text client prompt :
  generate_content client gemini_model prompt = Ok None ->
  generate_quiz py client prompt
  = ([GenerateContent gemini_model prompt], Throw TypeError).
Proof.
  intros H. unfold generate_quiz. now rewrite H.
Qed.

Lemma generate_quiz_malformed client prompt text e :
  generate_content client gemini_model prompt = Ok (Some text) ->
  extract_json py text = Raise e ->
  generate_quiz py client prompt
  = ([GenerateContent gemini_model prompt], Return 500 (error_body generation_error)).
Proof.
  intros H E. unfold generate_quiz. rewrite H, E. reflexivity.
Qed.

Lemma generate_quiz_parsed client prompt text quiz_data :
  generate_content client gemini_model prompt = Ok (Some text) ->
  extract_json py text = Ok quiz_data ->
  generate_quiz py client prompt
  = ([GenerateContent gemini_model prompt], Next quiz_data).
Proof.
  intros H E. unfold generate_quiz. rewrite H, E. reflexivity.
Qed.

(** Every run that passes input validation starts with the model call. *)
Lemma generate_quiz_trace client prompt :
  fst (generate_quiz py client prompt) = [GenerateContent gemini_model prompt].
Proof.
  unfold generate_quiz.
  destruct (generate_content client gemini_model prompt) as [[text|]|e];
    try reflexivity.
  cbn [try_except lift]. destruct (extract_json py text); reflexivity.
Qed.

End Handler.


Section Publisher.

Variable py : Builtins.

(** ** The export *)

Lemma export_trace_head w num_questions doc_content :
  exists rest,
    fst (export_to_docs py w num_questions doc_content) = AuthDefault :: rest.
Proof.
  export_cases w (doc_title num_questions); failed_cases; eauto.
Qed.

Lemma export_titles w num_questions doc_content title :
  In (DocumentsCreate title)
     (fst (export_to_docs py w num_questions doc_content)) ->
  title = doc_title num_questions.
Proof.
  export_cases w (doc_title num_questions); failed_cases;
    cbn [In]; intros H;
    repeat match goal with
           | H : _ \/ _ |- _ => destruct H as [H | H]
           end;
    try contradiction; try discriminate; now injection H.
Qed.

Lemma export_outcome w num_questions doc_content :
  snd (export_to_docs py w num_questions doc_content)
  <> Return 500 (error_body generation_error).
Proof.
  export_cases w (doc_title num_questions); failed_cases; discriminate.
Qed.

End Publisher.


Section Claims.

Variable py : Builtins.

Lemma read_input_rejected request :
  match read_input py request with
  | Ok _ => input_rejected py request = false
  | Raise _ => input_rejected py request = true
  end.
Proof.
  unfold read_input, input_rejected.
  destruct (get_json request) as [[| | | | | |d]|e]; try reflexivity.
  cbn [res_bind py_get].
  destruct (dict_lookup "source_text" d); cbn [res_bind];
    destruct (dict_lookup "num_questions" d) as [count|]; cbn [res_bind];
    try reflexivity;
    destruct (py_int py count); reflexivity.
Qed.

Lemma build_prompt_ok source_text num_questions :
  exists prompt, build_prompt py source_text num_questions = Ok prompt.
Proof. unfold build_prompt. apply prompt_with_ok. Qed.

(** A run that passes input validation calls the model first; any later
    call is one of the export. *)
Lemma generate_trace_valid w request client source_text num_questions prompt :
  gemini_client w = Some client ->
  read_input py request = Ok (source_text, num_questions) ->
  build_prompt py source_text num_questions = Ok prompt ->
  exists rest,
    fst (generate py w request) = GenerateContent gemini_model prompt :: rest /\
    forall c, In c rest ->
      exists doc_content,
        In c (fst (export_to_docs py w num_questions doc_content)).
Proof.
  intros Hclient Hinput Hprompt.
  rewrite (generate_valid py w request client source_text num_questions prompt)
    by assumption.
  pose proof (generate_quiz_trace py client prompt) as Htrace.
  destruct (generate_quiz py client prompt) as [trace [quiz_data| |]];
    simpl in Htrace; subst trace; unfold bind at 1; cbn [fst snd].
  - destruct (format_doc py quiz_data) as [doc_content|e];
      cbn [lift bind ret throw after fst snd app].
    + eexists. split; [reflexivity|]. intros c Hc. now exists doc_content.
    + eexists. split; [reflexivity|]. intros c [].
  - eexists. split; [reflexivity|]. intros c [].
  - eexists. split; [reflexivity|]. intros c [].
Qed.

(** The run after a decoded answer: the formatter, then the export. *)
Lemma generate_parsed w request client source_text num_questions prompt text
    quiz_data :
  gemini_client w = Some client ->
  read_input py request = Ok (source_text, num_questions) ->
  build_prompt py source_text num_questions = Ok prompt ->
  generate_content client gemini_model prompt = Ok (Some text) ->
  extract_json py text = Ok quiz_data ->
  generate py w request
  = match format_doc py quiz_data with
    | Ok doc_content =>
        after [GenerateContent gemini_model prompt]
          (export_to_docs py w num_questions doc_content)
    | Raise e => ([GenerateContent gemini_model prompt], Throw e)
    end.
Proof.
  intros Hclient Hinput Hprompt Hanswer Hjson.
  rewrite (generate_valid py w request client source_text num_questions prompt)
    by assumption.
  rewrite (generate_quiz_parsed py client prompt text quiz_data) by assumption.
  unfold bind at 1. cbn [fst snd].
  destruct (format_doc py quiz_data) as [doc_content|e];
    cbn [lift bind ret throw after fst snd app]; reflexivity.
Qed.

(** C1 (amended).  When the span decodes to a JSON object that lacks
    ["quiz"] or ["answers"], the handler does not answer with the error of a
    malformed generation: the missing key is read as an empty list, and when
    the items that are present format, the Document Publisher is invoked
    right after the model call. *)
Theorem missing_sections_are_read_as_empty
    w request client source_text num_questions prompt text d :
  gemini_client w = Some client ->
  read_input py request = Ok (source_text, num_questions) ->
  build_prompt py source_text num_questions = Ok prompt ->
  generate_content client gemini_model prompt = Ok (Some text) ->
  extract_json py text = Ok (PyDict d) ->
  dict_lookup "quiz" d = None \/ dict_lookup "answers" d = None ->
  snd (generate py w request) <> Return 500 (error_body generation_error) /\
  (dict_lookup "quiz" d = None ->
   format_doc py (PyDict d) = format_doc py (PyDict (("quiz", PyList []) :: d))) /\
  (dict_lookup "answers" d = None ->
   format_doc py (PyDict d)
   = format_doc py (PyDict (("answers", PyList []) :: d))) /\
  (dict_lookup "quiz" d = None -> dict_lookup "answers" d = None ->
   format_doc py (PyDict d) = Ok empty_document) /\
  (forall doc_content,
     format_doc py (PyDict d) = Ok doc_content ->
     exists rest,
       fst (generate py w request)
       = GenerateContent gemini_model prompt :: AuthDefault :: rest).
Proof.
  intros Hclient Hinput Hprompt Hanswer Hjson _.
  rewrite (generate_parsed w request client source_text num_questions prompt
             text (PyDict d)) by assumption.
  repeat split.
  - destruct (format_doc py (PyDict d)) as [doc_content|e].
    + apply export_outcome.
    + discriminate.
  - intros Hquiz. unfold format_doc.
    cbn [py_get dict_lookup String.eqb Ascii.eqb Bool.eqb].
    now rewrite Hquiz.
  - intros Hanswers. unfold format_doc.
    cbn [py_get dict_lookup String.eqb Ascii.eqb Bool.eqb].
    now rewrite Hanswers.
  - intros Hquiz Hanswers. unfold format_doc. cbn [py_get].
    rewrite Hquiz, Hanswers. reflexivity.
  - intros doc_content ->.
    destruct (export_trace_head py w num_questions doc_content) as [rest E].
    exists rest. unfold after. cbn [fst]. now rewrite E.
Qed.

(** C2 (amended).  With an initialised client, the handler answers 400 with
    an ["error"] string, and calls neither the model nor the publisher,
    exactly when the body is not JSON, is not a JSON object, or holds a
    ["num_questions"] that [int] refuses.  In a JSON object a missing
    ["source_text"] is read as the empty string and a missing
    ["num_questions"] as 10: whenever [int] accepts the count so read, the
    request is read with these values and goes on to the model call, with
    the prompt built from them. *)
Theorem invalid_input_is_rejected w request client :
  gemini_client w = Some client ->
  (input_rejected py request = true <->
   generate py w request = ([], Return 400 (error_body "Invalid input data."))) /\
  (forall d num_questions,
     get_json request = Ok (PyDict d) ->
     py_int py (field_or d "num_questions" (PyInt 10)) = Ok num_questions ->
     read_input py request
     = Ok (field_or d "source_text" (PyStr ""), num_questions) /\
     exists prompt rest,
       build_prompt py (field_or d "source_text" (PyStr "")) num_questions
       = Ok prompt /\
       fst (generate py w request)
       = GenerateContent gemini_model prompt :: rest).
Proof.
  intros Hclient. split.
  - pose proof (read_input_rejected request) as Hspec.
    destruct (read_input py request) as [[source_text num_questions]|e]
      eqn:Hinput.
    + split; [congruence|]. intros Hrun. exfalso.
      destruct (build_prompt_ok source_text num_questions) as [prompt Hprompt].
      destruct (generate_trace_valid w request client source_text num_questions
                  prompt Hclient Hinput Hprompt) as (rest & Htrace & _).
      rewrite Hrun in Htrace. discriminate.
    + split; [|trivial]. intros _.
      now apply (generate_invalid py w request client e).
  - intros d num_questions Hjson Hcount.
    assert (Hinput : read_input py request
                     = Ok (field_or d "source_text" (PyStr ""), num_questions)).
    { unfold read_input. rewrite Hjson. cbn [res_bind py_get].
      unfold field_or in Hcount |- *.
      destruct (dict_lookup "source_text" d) as [source_text|];
        cbn [res_bind];
        destruct (dict_lookup "num_questions" d) as [count|];
        cbn [res_bind]; rewrite Hcount; reflexivity. }
    split; [exact Hinput|].
    destruct (build_prompt_ok (field_or d "source_text" (PyStr ""))
                num_questions) as [prompt Hprompt].
    destruct (generate_trace_valid w request client _ num_questions prompt
                Hclient Hinput Hprompt) as (rest & Htrace & _).
    now exists prompt, rest.
Qed.

(** C3.  A count above 20 is replaced by 20 in the prompt sent to the model
    and in the title of the created document; a count below 1 is used as it
    is in both. *)
Theorem count_is_capped_not_floored w request client source_text num_questions :
  gemini_client w = Some client ->
  read_input py request = Ok (source_text, num_questions) ->
  (20 < num_questions ->
   exists prompt rest,
     prompt_with py source_text 20 = Ok prompt /\
     asks_for 20 prompt /\
     fst (generate py w request) = GenerateContent gemini_model prompt :: rest /\
     forall title, In (DocumentsCreate title) (fst (generate py w request)) ->
                   title = "AI Quiz - 20 Questions") /\
  (num_questions < 1 ->
   exists prompt rest,
     prompt_with py source_text num_questions = Ok prompt /\
     asks_for num_questions prompt /\
     fst (generate py w request) = GenerateContent gemini_model prompt :: rest /\
     forall title, In (DocumentsCreate title) (fst (generate py w request)) ->
                   title = "AI Quiz - " ++ str_of_int num_questions ++ " Questions").
Proof.
  intros Hclient Hinput.
  destruct (build_prompt_ok source_text num_questions) as [prompt Hprompt].
  destruct (generate_trace_valid w request client source_text num_questions
              prompt Hclient Hinput Hprompt) as (rest & Htrace & Hrest).
  assert (Htitle : forall title,
             In (DocumentsCreate title) (fst (generate py w request)) ->
             title = doc_title num_questions).
  { intros title Hin. rewrite Htrace in Hin.
    destruct Hin as [Hin | Hin]; [discriminate|].
    destruct (Hrest _ Hin) as [doc_content Hexport].
    now apply export_titles in Hexport. }
  unfold build_prompt in Hprompt. unfold doc_title in Htitle.
  split; intros Hcount.
  - rewrite Z.min_r in Hprompt, Htitle by lia.
    exists prompt, rest. split; [exact Hprompt|].
    split; [exact (prompt_with_asks py _ _ _ Hprompt)|].
    split; [exact Htrace|]. exact Htitle.
  - rewrite Z.min_l in Hprompt, Htitle by lia.
    exists prompt, rest. split; [exact Hprompt|].
    split; [exact (prompt_with_asks py _ _ _ Hprompt)|].
    split; [exact Htrace|]. exact Htitle.
Qed.

(** C4.  When the text of the model's answer holds no opening brace,
    decoding fails and the handler answers 500 with the error of a
    malformed generation, after the model call alone. *)
Theorem no_open_brace_is_malformed
    w request client source_text num_questions prompt text :
  gemini_client w = Some client ->
  read_input py request = Ok (source_text, num_questions) ->
  build_prompt py source_text num_questions = Ok prompt ->
  generate_content client gemini_model prompt = Ok (Some text) ->
  has_char "{" text = false ->
  extract_json py text = Raise JSONDecodeError /\
  generate py w request
  = ([GenerateContent gemini_model prompt], Return 500 (error_body generation_error)).
Proof.
  intros Hclient Hinput Hprompt Hanswer Hbrace.
  pose proof (extract_without_open_brace py text Hbrace) as Hjson.
  split; [exact Hjson|].
  rewrite (generate_valid py w request client source_text num_questions prompt)
    by assumption.
  rewrite (generate_quiz_malformed py client prompt text JSONDecodeError)
    by assumption.
  reflexivity.
Qed.

(** When the model call raises, the [except] clause reads the unbound local
    [response], and the exception it raises leaves the view. *)
Lemma generation_error_escapes
    w request client source_text num_questions prompt e :
  gemini_client w = Some client ->
  read_input py request = Ok (source_text, num_questions) ->
  build_prompt py source_text num_questions = Ok prompt ->
  generate_content client gemini_model prompt = Raise e ->
  generate py w request
  = ([GenerateContent gemini_model prompt], Throw (UnboundLocalError "response")).
Proof.
  intros Hclient Hinput Hprompt Hanswer.
  rewrite (generate_valid py w request client source_text num_questions prompt)
    by assumption.
  rewrite (generate_quiz_raises py client prompt e) by assumption.
  reflexivity.
Qed.

(** C6.  The span of the example answer is its JSON object, and decoding it
    gives the quiz without questions and answers. *)
Theorem extractor_example :
  slice example_answer (find "{" example_answer)
    (rfind "}" example_answer + 1)
  = "{" ++ DQ ++ "quiz" ++ DQ ++ ":[]," ++ DQ ++ "answers" ++ DQ ++ ":[]}" /\
  extract_json py example_answer
  = Ok (document_to_py {| quiz := []; answers := [] |}).
Proof.
  assert (Hspan : slice example_answer (find "{" example_answer)
                    (rfind "}" example_answer + 1)
                  = "{" ++ DQ ++ "quiz" ++ DQ ++ ":[]," ++ DQ ++ "answers"
                      ++ DQ ++ ":[]}")
    by (vm_compute; reflexivity).
  split; [exact Hspan|].
  unfold extract_json. rewrite Hspan. vm_compute. reflexivity.
Qed.

(** C8.  For a count from 1 to 20 the prompt holds the source text as it is
    and the count in decimal, in the sentence that asks for that many
    questions. *)
Theorem prompt_holds_text_and_count (source_text : string) (num_questions : Z) :
  1 <= num_questions <= 20 ->
  exists prompt,
    build_prompt py (PyStr source_text) num_questions = Ok prompt /\
    contains source_text prompt /\
    contains (str_of_int num_questions) prompt /\
    asks_for num_questions prompt.
Proof.
  intros Hrange.
  destruct (prompt_with_shape py) as [tail Hshape].
  unfold build_prompt. rewrite Z.min_l by lia. rewrite Hshape.
  eexists. split; [reflexivity|]. cbn [py_str].
  repeat split.
  - exists prompt_head. eexists. reflexivity.
  - exists (prompt_head ++ source_text ++ prompt_middle). eexists.
    rewrite !append_assoc. reflexivity.
  - exists (prompt_head ++ source_text ++ LF ++ "   ---" ++ LF
              ++ "2. **Question Count:** ").
    exists tail. rewrite !append_assoc. reflexivity.
Qed.

(** C9.  When the client could not be made at start, every request is
    answered 500 with an error message at once: no call is made. *)
Theorem uninitialised_client_fails_at_once w request :
  gemini_client w = None ->
  generate py w request
  = ([], Return 500
           (error_body
              "Gemini Client not initialized. Check API Key configuration.")).
Proof.
  intros Hclient. unfold generate. now rewrite Hclient.
Qed.

(** C10.  When the decoded object lists a question without ["id"],
    ["type"] or ["question"], or an answer without ["id"] or
    ["correct_answer"], the formatter raises outside every [try]: the
    exception leaves the view after the model call, no JSON error body is
    returned and nothing is published. *)
Theorem unreadable_item_escapes
    w request client source_text num_questions prompt text d items item key :
  gemini_client w = Some client ->
  read_input py request = Ok (source_text, num_questions) ->
  build_prompt py source_text num_questions = Ok prompt ->
  generate_content client gemini_model prompt = Ok (Some text) ->
  extract_json py text = Ok (PyDict d) ->
  (dict_lookup "quiz" d = Some (PyList items) /\
   In key ["id"; "type"; "question"]) \/
  (dict_lookup "answers" d = Some (PyList items) /\
   In key ["id"; "correct_answer"]) ->
  In item items ->
  has_key item key = false ->
  exists e,
    format_doc py (PyDict d) = Raise e /\
    generate py w request = ([GenerateContent gemini_model prompt], Throw e).
Proof.
  intros Hclient Hinput Hprompt Hanswer Hjson Hsection Hitem Hkey.
  assert (Hraise : exists e, format_doc py (PyDict d) = Raise e).
  { destruct Hsection as [[Hquiz Hin] | [Hanswers Hin]].
    - apply (format_doc_bad_question py d items item Hquiz Hitem).
      now apply (question_text_missing py item key).
    - apply (format_doc_bad_answer py d items item Hanswers Hitem).
      now apply (answer_line_missing py item key). }
  destruct Hraise as [e He]. exists e. split; [exact He|].
  rewrite (generate_parsed w request client source_text num_questions prompt
             text (PyDict d)) by assumption.
  now rewrite He.
Qed.

End Claims.

(** ** Closed instances *)

(** The formatter on one multiple-choice question with two options and its
    answer. *)
Example formatter_example :
  format_doc example_builtins
    (document_to_py
       {| quiz := [ {| item_id := 1; item_type := MC;
                       item_question := "Which one?";
                       item_options := Some ["This"; "That"] |} ];
          answers := [ {| answer_id := 1; correct_answer := "That" |} ] |})
  = Ok ("Generated Quiz" ++ LF ++ LF ++ "---" ++ LF
          ++ "--- QUESTIONS ---" ++ LF
          ++ "1. (MC) Which one?" ++ LF
          ++ "    - This" ++ LF
          ++ "    - That" ++ LF ++ LF
          ++ LF ++ LF ++ "--- ANSWER KEY ---" ++ LF
          ++ "1. That" ++ LF).
Proof. vm_compute. reflexivity. Qed.

(** C1, counterexample.  The model answers [{}]: the span decodes to an
    object without ["quiz"] and ["answers"], and the handler creates the
    document, fills it with the two empty sections and answers 200.  Where
    the export cannot start, the handler still goes on to it and reports
    its failure, not a malformed generation. *)
Lemma empty_object_is_published :
  extract_json example_builtins "{}" = Ok (PyDict []) /\
  generate example_builtins
    (example_world (Some (example_client (Ok (Some "{}")))))
    (example_request [("source_text", example_source); ("num_questions", PyInt 5)])
  = ([GenerateContent gemini_model (example_prompt example_source 5);
      AuthDefault; BuildDocs;
      DocumentsCreate "AI Quiz - 5 Questions";
      DocumentsBatchUpdate (PyStr "doc-1") empty_document],
     Return 200 (success_body example_url)) /\
  generate example_builtins
    (world_without_credentials (Some (example_client (Ok (Some "{}")))))
    (example_request [("source_text", example_source); ("num_questions", PyInt 5)])
  = ([GenerateContent gemini_model (example_prompt example_source 5);
      AuthDefault],
     Return 500 (error_body "An unexpected error occurred during Docs export.")).
Proof. repeat split; vm_compute; reflexivity. Qed.

(** C1, instance of the amended statement at the same answer. *)
Lemma empty_object_instance :
  snd (generate example_builtins
         (example_world (Some (example_client (Ok (Some "{}")))))
         (example_request
            [("source_text", example_source); ("num_questions", PyInt 5)]))
  <> Return 500 (error_body generation_error) /\
  format_doc example_builtins (PyDict []) = Ok empty_document /\
  exists rest,
    fst (generate example_builtins
           (example_world (Some (example_client (Ok (Some "{}")))))
           (example_request
              [("source_text", example_source); ("num_questions", PyInt 5)]))
    = GenerateContent gemini_model (example_prompt example_source 5)
        :: AuthDefault :: rest.
Proof.
  destruct (missing_sections_are_read_as_empty example_builtins
              (example_world (Some (example_client (Ok (Some "{}")))))
              (example_request
                 [("source_text", example_source); ("num_questions", PyInt 5)])
              (example_client (Ok (Some "{}"))) example_source 5
              (example_prompt example_source 5) "{}" []
              eq_refl eq_refl eq_refl eq_refl eq_refl (or_introl eq_refl))
    as (Hout & _ & _ & Hempty & Hcalls).
  split; [exact Hout|]. split; [exact (Hempty eq_refl eq_refl)|].
  exact (Hcalls empty_document (Hempty eq_refl eq_refl)).
Defined.

(** C2, counterexample.  The body [{}] has neither field: the handler
    reads the empty text and the count 10, calls the model and publishes. *)
Lemma empty_body_reaches_the_model :
  read_input example_builtins (example_request []) = Ok (PyStr "", 10) /\
  generate example_builtins
    (example_world (Some (example_client (Ok (Some "{}")))))
    (example_request [])
  = ([GenerateContent gemini_model (example_prompt (PyStr "") 10);
      AuthDefault; BuildDocs;
      DocumentsCreate "AI Quiz - 10 Questions";
      DocumentsBatchUpdate (PyStr "doc-1") empty_document],
     Return 200 (success_body example_url)).
Proof. split; vm_compute; reflexivity. Qed.

(** C2, instances of the amended statement: a [null] count is refused, and
    the body [{}] is read as the empty text and the count 10 and goes on to
    the model call. *)
Lemma null_count_instance :
  generate example_builtins
    (example_world (Some (example_client (Ok (Some "{}")))))
    (example_request [("source_text", example_source); ("num_questions", PyNone)])
  = ([], Return 400 (error_body "Invalid input data.")) /\
  read_input example_builtins (example_request []) = Ok (PyStr "", 10) /\
  exists prompt rest,
    build_prompt example_builtins (PyStr "") 10 = Ok prompt /\
    fst (generate example_builtins
           (example_world (Some (example_client (Ok (Some "{}")))))
           (example_request []))
    = GenerateContent gemini_model prompt :: rest.
Proof.
  split.
  - apply (proj1 (proj1 (invalid_input_is_rejected example_builtins
                           (example_world (Some (example_client (Ok (Some "{}")))))
                           (example_request
                              [("source_text", example_source);
                               ("num_questions", PyNone)])
                           (example_client (Ok (Some "{}"))) eq_refl))).
    reflexivity.
  - exact (proj2 (invalid_input_is_rejected example_builtins
                    (example_world (Some (example_client (Ok (Some "{}")))))
                    (example_request [])
                    (example_client (Ok (Some "{}"))) eq_refl)
             [] 10 eq_refl eq_refl).
Defined.

(** C3, instances: the counts 50 and 0, with a document created for each. *)
Lemma count_instances :
  ((exists prompt rest,
      prompt_with example_builtins example_source 20 = Ok prompt /\
      asks_for 20 prompt /\
      fst (generate example_builtins
             (example_world (Some (example_client (Ok (Some "{}")))))
             (example_request
                [("source_text", example_source); ("num_questions", PyInt 50)]))
      = GenerateContent gemini_model prompt :: rest /\
      forall title,
        In (DocumentsCreate title)
           (fst (generate example_builtins
                   (example_world (Some (example_client (Ok (Some "{}")))))
                   (example_request
                      [("source_text", example_source);
                       ("num_questions", PyInt 50)]))) ->
        title = "AI Quiz - 20 Questions") /\
   In (DocumentsCreate "AI Quiz - 20 Questions")
      (fst (generate example_builtins
              (example_world (Some (example_client (Ok (Some "{}")))))
              (example_request
                 [("source_text", example_source);
                  ("num_questions", PyInt 50)])))) /\
  ((exists prompt rest,
      prompt_with example_builtins example_source 0 = Ok prompt /\
      asks_for 0 prompt /\
      fst (generate example_builtins
             (example_world (Some (example_client (Ok (Some "{}")))))
             (example_request
                [("source_text", example_source); ("num_questions", PyInt 0)]))
      = GenerateContent gemini_model prompt :: rest /\
      forall title,
        In (DocumentsCreate title)
           (fst (generate example_builtins
                   (example_world (Some (example_client (Ok (Some "{}")))))
                   (example_request
                      [("source_text", example_source);
                       ("num_questions", PyInt 0)]))) ->
        title = "AI Quiz - 0 Questions") /\
   In (DocumentsCreate "AI Quiz - 0 Questions")
      (fst (generate example_builtins
              (example_world (Some (example_client (Ok (Some "{}")))))
              (example_request
                 [("source_text", example_source);
                  ("num_questions", PyInt 0)])))).
Proof.
  split; split.
  - apply (proj1 (count_is_capped_not_floored example_builtins
                    (example_world (Some (example_client (Ok (Some "{}")))))
                    (example_request
                       [("source_text", example_source);
                        ("num_questions", PyInt 50)])
                    (example_client (Ok (Some "{}"))) example_source 50
                    eq_refl eq_refl)).
    reflexivity.
  - vm_compute. right. right. right. left. reflexivity.
  - apply (proj2 (count_is_capped_not_floored example_builtins
                    (example_world (Some (example_client (Ok (Some "{}")))))
                    (example_request
                       [("source_text", example_source);
                        ("num_questions", PyInt 0)])
                    (example_client (Ok (Some "{}"))) example_source 0
                    eq_refl eq_refl)).
    reflexivity.
  - vm_compute. right. right. right. left. reflexivity.
Defined.

(** C4, instance: an answer in plain words. *)
Lemma plain_words_instance :
  extract_json example_builtins "I cannot write a quiz about this text."
  = Raise JSONDecodeError /\
  generate example_builtins
    (example_world
       (Some (example_client (Ok (Some "I cannot write a quiz about this text.")))))
    (example_request [("source_text", example_source); ("num_questions", PyInt 5)])
  = ([GenerateContent gemini_model (example_prompt example_source 5)],
     Return 500 (error_body generation_error)).
Proof.
  apply (no_open_brace_is_malformed example_builtins
           (example_world
              (Some (example_client
                       (Ok (Some "I cannot write a quiz about this text.")))))
           (example_request
              [("source_text", example_source); ("num_questions", PyInt 5)])
           (example_client (Ok (Some "I cannot write a quiz about this text.")))
           example_source 5 (example_prompt example_source 5)
           "I cannot write a quiz about this text.");
    reflexivity.
Defined.

(** C5, the failing run.  The model call raises: the handler makes no
    further call, and instead of the 500 response with an ["error"] field
    the [UnboundLocalError] of the [except] clause leaves the view. *)
Theorem generation_error_is_not_reported :
  generate example_builtins
    (example_world (Some (example_client (Raise (ExternalError "ServerError")))))
    (example_request [("source_text", example_source); ("num_questions", PyInt 5)])
  = ([GenerateContent gemini_model (example_prompt example_source 5)],
     Throw (UnboundLocalError "response")).
Proof.
  apply (generation_error_escapes example_builtins
           (example_world
              (Some (example_client (Raise (ExternalError "ServerError")))))
           (example_request
              [("source_text", example_source); ("num_questions", PyInt 5)])
           (example_client (Raise (ExternalError "ServerError")))
           example_source 5 (example_prompt example_source 5)
           (ExternalError "ServerError"));
    reflexivity.
Qed.

(** C8, instance: five questions about the example text. *)
Lemma prompt_instance :
  exists prompt,
    build_prompt example_builtins example_source 5 = Ok prompt /\
    contains "Water boils at 100 degrees Celsius." prompt /\
    contains "5" prompt /\
    asks_for 5 prompt.
Proof.
  apply (prompt_holds_text_and_count example_builtins
           "Water boils at 100 degrees Celsius." 5).
  lia.
Defined.

(** C9, instance: a world without client. *)
Lemma uninitialised_client_instance :
  generate example_builtins (example_world None)
    (example_request [("source_text", example_source); ("num_questions", PyInt 5)])
  = ([], Return 500
           (error_body
              "Gemini Client not initialized. Check API Key configuration.")).
Proof.
  apply (uninitialised_client_fails_at_once example_builtins).
  reflexivity.
Defined.

(** C10, instance: a question without ["type"]. *)
Lemma unreadable_item_instance :
  (exists e,
     format_doc example_builtins
       (PyDict [("quiz", PyList [PyDict [("id", PyInt 1);
                                          ("question", PyStr "Why?")]])])
     = Raise e /\
     generate example_builtins
       (example_world (Some (example_client (Ok (Some untyped_answer)))))
       (example_request
          [("source_text", example_source); ("num_questions", PyInt 5)])
     = ([GenerateContent gemini_model (example_prompt example_source 5)],
        Throw e)) /\
  snd (generate example_builtins
         (example_world (Some (example_client (Ok (Some untyped_answer)))))
         (example_request
            [("source_text", example_source); ("num_questions", PyInt 5)]))
  = Throw (KeyError "type").
Proof.
  split.
  - apply (unreadable_item_escapes example_builtins
             (example_world (Some (example_client (Ok (Some untyped_answer)))))
             (example_request
                [("source_text", example_source); ("num_questions", PyInt 5)])
             (example_client (Ok (Some untyped_answer)))
             example_source 5 (example_prompt example_source 5) untyped_answer
             [("quiz", PyList [PyDict [("id", PyInt 1);
                                       ("question", PyStr "Why?")]])]
             [PyDict [("id", PyInt 1); ("question", PyStr "Why?")]]
             (PyDict [("id", PyInt 1); ("question", PyStr "Why?")])
             "type"); try reflexivity.
    + left. split; [reflexivity|]. right. left. reflexivity.
    + left. reflexivity.
  - vm_compute. reflexivity.
Defined.


(** * Whole runs of the handler *)

Section Runs.

Variable py : Builtins.

Lemma py_get_document document :
  py_get (PyDict document) "documentId" PyNone = Ok (document_id document).
Proof.
  unfold py_get, document_id.
  now destruct (dict_lookup "documentId" document).
Qed.

(** The [except] clauses of the export make no call. *)
Lemma export_failed_calls {A : Type} (e : exn) :
  fst (@export_failed A e) = [].
Proof. destruct e as [| | | | | | | |? [?|]|]; reflexivity. Qed.

(** The runs of the export, by the first of its calls that raises. *)
Lemma export_to_docs_cases w num_questions doc_content :
  (exists e, auth_default w = Raise e /\
     export_to_docs py w num_questions doc_content
     = ([AuthDefault], snd (@export_failed Empty_set e))) \/
  (exists e, auth_default w = Ok tt /\ build_docs w = Raise e /\
     export_to_docs py w num_questions doc_content
     = ([AuthDefault; BuildDocs], snd (@export_failed Empty_set e))) \/
  (exists e, auth_default w = Ok tt /\ build_docs w = Ok tt /\
     documents_create w (doc_title num_questions) = Raise e /\
     export_to_docs py w num_questions doc_content
     = ([AuthDefault; BuildDocs; DocumentsCreate (doc_title num_questions)],
        snd (@export_failed Empty_set e))) \/
  (exists document e, auth_default w = Ok tt /\ build_docs w = Ok tt /\
     documents_create w (doc_title num_questions) = Ok document /\
     documents_batchUpdate w (document_id document) doc_content = Raise e /\
     export_to_docs py w num_questions doc_content
     = ([AuthDefault; BuildDocs; DocumentsCreate (doc_title num_questions);
         DocumentsBatchUpdate (document_id document) doc_content],
        snd (@export_failed Empty_set e))) \/
  (exists document, auth_default w = Ok tt /\ build_docs w = Ok tt /\
     documents_create w (doc_title num_questions) = Ok document /\
     documents_batchUpdate w (document_id document) doc_content = Ok tt /\
     export_to_docs py w num_questions doc_content
     = ([AuthDefault; BuildDocs; DocumentsCreate (doc_title num_questions);
         DocumentsBatchUpdate (document_id document) doc_content],
        Return 200 (success_body (doc_link py (document_id document))))).
Proof.
  unfold export_to_docs, get_google_docs_service, create_google_doc, extern.
  destruct (auth_default w) as [[]|e1].
  2:{ left. exists e1. split; [reflexivity|].
      cbn [lift bind after ret throw try_except fst snd app].
      pose proof (@export_failed_calls Empty_set e1) as H.
      destruct (export_failed e1) as [t f]. simpl in H. subst t. reflexivity. }
  right. destruct (build_docs w) as [[]|e2].
  2:{ left. exists e2. split; [reflexivity|]. split; [reflexivity|].
      cbn [lift bind after ret throw try_except fst snd app].
      pose proof (@export_failed_calls Empty_set e2) as H.
      destruct (export_failed e2) as [t f]. simpl in H. subst t. reflexivity. }
  right. destruct (documents_create w (doc_title num_questions)) as [document|e3] eqn:Hcreate.
  2:{ left. exists e3. repeat (split; [reflexivity|]).
      cbn [lift bind after ret throw try_except fst snd app].
      pose proof (@export_failed_calls Empty_set e3) as H.
      destruct (export_failed e3) as [t f]. simpl in H. subst t. reflexivity. }
  right. cbn [lift bind after ret throw try_except fst snd app].
  rewrite py_get_document.
  cbn [lift bind after ret throw try_except fst snd app].
  destruct (documents_batchUpdate w (document_id document) doc_content) as [[]|e4] eqn:Hupdate.
  - right. exists document. repeat (split; [reflexivity|]).
    split; [exact Hupdate|].
    cbn [lift bind after ret throw respond try_except fst snd app]. reflexivity.
  - left. exists document, e4. repeat (split; [reflexivity|]).
    split; [exact Hupdate|].
    cbn [lift bind after ret throw try_except fst snd app].
    pose proof (@export_failed_calls Empty_set e4) as H.
    destruct (export_failed e4) as [t f]. simpl in H. subst t. reflexivity.
Qed.


Lemma export_failed_not_success {A : Type} (e : exn) body :
  snd (@export_failed A e) <> Return 200 body.
Proof. destruct e as [| | | | | | | |? [?|]|]; discriminate. Qed.

(** The runs of the view, stage by stage. *)
Lemma generate_cases w request :
  (gemini_client w = None /\
   generate py w request
   = ([], Return 500
            (error_body
               "Gemini Client not initialized. Check API Key configuration."))) \/
  (exists client e,
     gemini_client w = Some client /\ read_input py request = Raise e /\
     generate py w request = ([], Return 400 (error_body "Invalid input data."))) \/
  (exists client source_text num_questions prompt,
     gemini_client w = Some client /\
     read_input py request = Ok (source_text, num_questions) /\
     build_prompt py source_text num_questions = Ok prompt /\
     ((exists e,
         generate_content client gemini_model prompt = Raise e /\
         generate py w request
         = ([GenerateContent gemini_model prompt],
            Throw (UnboundLocalError "response"))) \/
      (generate_content client gemini_model prompt = Ok None /\
       generate py w request
       = ([GenerateContent gemini_model prompt], Throw TypeError)) \/
      (exists text e,
         generate_content client gemini_model prompt = Ok (Some text) /\
         extract_json py text = Raise e /\
         generate py w request
         = ([GenerateContent gemini_model prompt],
            Return 500 (error_body generation_error))) \/
      (exists text quiz_data e,
         generate_content client gemini_model prompt = Ok (Some text) /\
         extract_json py text = Ok quiz_data /\
         format_doc py quiz_data = Raise e /\
         generate py w request
         = ([GenerateContent gemini_model prompt], Throw e)) \/
      (exists text quiz_data doc_content,
         generate_content client gemini_model prompt = Ok (Some text) /\
         extract_json py text = Ok quiz_data /\
         format_doc py quiz_data = Ok doc_content /\
         generate py w request
         = after [GenerateContent gemini_model prompt]
             (export_to_docs py w num_questions doc_content)))).
Proof.
  destruct (gemini_client w) as [client|] eqn:Hclient.
  2:{ left. split; [reflexivity|]. unfold generate. now rewrite Hclient. }
  right.
  destruct (read_input py request) as [[source_text num_questions]|e] eqn:Hinput.
  2:{ left. exists client, e. repeat split.
      now apply (generate_invalid py w request client e). }
  right.
  destruct (build_prompt_ok py source_text num_questions) as [prompt Hprompt].
  exists client, source_text, num_questions, prompt.
  repeat (split; [reflexivity || assumption|]).
  rewrite (generate_valid py w request client source_text num_questions prompt)
    by assumption.
  destruct (generate_content client gemini_model prompt) as [[text|]|e]
    eqn:Hanswer.
  - right. right.
    destruct (extract_json py text) as [quiz_data|e] eqn:Hjson.
    + right.
      rewrite (generate_quiz_parsed py client prompt text quiz_data)
        by assumption.
      destruct (format_doc py quiz_data) as [doc_content|e] eqn:Hformat.
      * right. exists text, quiz_data, doc_content.
        repeat (split; [reflexivity || assumption|]).
        unfold bind at 1. cbn [fst snd]. rewrite Hformat.
        cbn [lift bind ret throw after fst snd app]. reflexivity.
      * left. exists text, quiz_data, e.
        repeat (split; [reflexivity || assumption|]).
        unfold bind at 1. cbn [fst snd]. rewrite Hformat.
        reflexivity.
    + left. exists text, e. repeat (split; [reflexivity || assumption|]).
      now rewrite (generate_quiz_malformed py client prompt text e).
  - right. left. split; [reflexivity|].
    now rewrite (generate_quiz_no_text py client prompt).
  - left. exists e. split; [reflexivity|].
    now rewrite (generate_quiz_raises py client prompt e).
Qed.

(** X1.  A request served to its end.  When the input is read, the model
    answers with text whose span decodes, the decoded quiz formats and the
    four calls of the export succeed, the handler makes five calls in this
    order: the model, credential discovery, the Docs service, the creation
    of a document under the title of the request, and the insertion of the
    formatted text into the document whose id the creation returned.  It
    answers 200 with the link built from that id. *)
Theorem published_quiz_is_linked
    w request client source_text num_questions prompt text quiz_data
    doc_content document :
  gemini_client w = Some client ->
  read_input py request = Ok (source_text, num_questions) ->
  build_prompt py source_text num_questions = Ok prompt ->
  generate_content client gemini_model prompt = Ok (Some text) ->
  extract_json py text = Ok quiz_data ->
  format_doc py quiz_data = Ok doc_content ->
  auth_default w = Ok tt ->
  build_docs w = Ok tt ->
  documents_create w (doc_title num_questions) = Ok document ->
  documents_batchUpdate w (document_id document) doc_content = Ok tt ->
  generate py w request
  = (pipeline_calls prompt (doc_title num_questions) (document_id document)
       doc_content,
     Return 200 (success_body (doc_link py (document_id document)))).
Proof.
  intros Hclient Hinput Hprompt Hanswer Hjson Hformat Hauth Hbuild Hcreate
    Hupdate.
  rewrite (generate_parsed py w request client source_text num_questions prompt
             text quiz_data) by assumption.
  rewrite Hformat.
  destruct (export_to_docs_cases w num_questions doc_content)
    as [(e & E & _) | [(e & _ & E & _) | [(e & _ & _ & E & _)
        | [(document' & e & _ & _ & Hc & E & _)
          | (document' & _ & _ & Hc & _ & Hrun)]]]];
    try congruence.
  rewrite Hcreate in Hc. injection Hc as <-. rewrite Hrun. reflexivity.
Qed.

(** X2.  The handler answers 200 only after the whole pipeline: the input
    was read, the model gave text that decoded and formatted, the document
    was created and the insertion into it succeeded.  The calls made are the
    five of the pipeline and the body holds the link of the created
    document. *)
Theorem success_means_published w request body :
  snd (generate py w request) = Return 200 body ->
  exists client source_text num_questions prompt text quiz_data doc_content
         document,
    gemini_client w = Some client /\
    read_input py request = Ok (source_text, num_questions) /\
    build_prompt py source_text num_questions = Ok prompt /\
    generate_content client gemini_model prompt = Ok (Some text) /\
    extract_json py text = Ok quiz_data /\
    format_doc py quiz_data = Ok doc_content /\
    documents_create w (doc_title num_questions) = Ok document /\
    documents_batchUpdate w (document_id document) doc_content = Ok tt /\
    fst (generate py w request)
    = pipeline_calls prompt (doc_title num_questions) (document_id document)
        doc_content /\
    body = success_body (doc_link py (document_id document)).
Proof.
  intros Hbody.
  destruct (generate_cases w request)
    as [(_ & Hrun) | [(client & e & _ & _ & Hrun)
        | (client & source_text & num_questions & prompt & Hclient & Hinput
           & Hprompt & Hstage)]];
    try (rewrite Hrun in Hbody; discriminate Hbody).
  destruct Hstage
    as [(e & _ & Hrun) | [(_ & Hrun) | [(text & e & _ & _ & Hrun)
        | [(text & quiz_data & e & _ & _ & _ & Hrun)
          | (text & quiz_data & doc_content & Hanswer & Hjson & Hformat
             & Hrun)]]]];
    [rewrite Hrun in Hbody; discriminate Hbody ..|].
  rewrite Hrun in Hbody |- *. unfold after in Hbody |- *. cbn [fst snd] in *.
  destruct (export_to_docs_cases w num_questions doc_content)
    as [(e & _ & E) | [(e & _ & _ & E) | [(e & _ & _ & _ & E)
        | [(document & e & _ & _ & _ & _ & E)
          | (document & _ & _ & Hcreate & Hupdate & E)]]]];
    rewrite E in Hbody |- *; cbn [fst snd] in *;
    try (now apply export_failed_not_success in Hbody).
  injection Hbody as <-.
  exists client, source_text, num_questions, prompt, text, quiz_data,
    doc_content, document.
  repeat (split; [assumption|]). split; reflexivity.
Qed.

(** X3.  Whatever the request and the collaborators, the calls the handler
    makes are the first calls of one pipeline: the model is called at most
    once and before every call of the export, nothing is retried and no call
    follows the insertion. *)
Theorem calls_follow_the_pipeline w request :
  exists prompt title doc_id content,
    is_prefix (fst (generate py w request))
      (pipeline_calls prompt title doc_id content).
Proof.
  unfold is_prefix, pipeline_calls.
  destruct (generate_cases w request)
    as [(_ & Hrun) | [(client & e & _ & _ & Hrun)
        | (client & source_text & num_questions & prompt & Hclient & Hinput
           & Hprompt & Hstage)]].
  - rewrite Hrun. exists "", "", PyNone, "". eexists. reflexivity.
  - rewrite Hrun. exists "", "", PyNone, "". eexists. reflexivity.
  - exists prompt, (doc_title num_questions).
    destruct Hstage
      as [(e & _ & Hrun) | [(_ & Hrun) | [(text & e & _ & _ & Hrun)
          | [(text & quiz_data & e & _ & _ & _ & Hrun)
            | (text & quiz_data & doc_content & Hanswer & Hjson & Hformat
               & Hrun)]]]];
      rewrite Hrun;
      try (exists PyNone, ""; eexists; reflexivity).
    unfold after. cbn [fst].
    destruct (export_to_docs_cases w num_questions doc_content)
      as [(e & _ & E) | [(e & _ & _ & E) | [(e & _ & _ & _ & E)
          | [(document & e & _ & _ & _ & _ & E)
            | (document & _ & _ & Hcreate & Hupdate & E)]]]];
      rewrite E; cbn [fst app];
      try (exists PyNone, ""; eexists; reflexivity);
      exists (document_id document), doc_content; eexists; reflexivity.
Qed.

(** X4.  The responses of the handler: 200 with the success body and a
    document link, 400 with the message of invalid input, or 500 with one of
    four messages (client not initialised, generation failed, Docs API error
    with its status code, unexpected export error).  An error body holds the
    key ["error"] alone. *)
Theorem responses_are_enumerated w request status body :
  snd (generate py w request) = Return status body ->
  (status = 200 /\ exists doc_id, body = success_body (doc_link py doc_id)) \/
  (status = 400 /\ body = error_body "Invalid input data.") \/
  (status = 500 /\
   (body = error_body
             "Gemini Client not initialized. Check API Key configuration." \/
    body = error_body generation_error \/
    body = error_body "An unexpected error occurred during Docs export." \/
    exists code,
      body = error_body
               ("Failed to create Google Doc. Check Cloud Run permissions. Error: "
                  ++ str_of_int code))).
Proof.
  assert (Hfailed : forall e,
             snd (@export_failed Empty_set e) = Return status body ->
             status = 500 /\
             (body = error_body "An unexpected error occurred during Docs export." \/
              exists code,
                body = error_body
                         ("Failed to create Google Doc. Check Cloud Run permissions. Error: "
                            ++ str_of_int code))).
  { intros e He.
    destruct e as [| | | | | | | |code [content|]|]; cbn in He;
      try discriminate; injection He as <- <-; split; try reflexivity;
      try (now left).
    right. now exists code. }
  intros Hbody.
  destruct (generate_cases w request)
    as [(_ & Hrun) | [(client & e & _ & _ & Hrun)
        | (client & source_text & num_questions & prompt & Hclient & Hinput
           & Hprompt & Hstage)]].
  - rewrite Hrun in Hbody. injection Hbody as <- <-.
    right. right. split; [reflexivity|]. now left.
  - rewrite Hrun in Hbody. injection Hbody as <- <-.
    right. left. split; reflexivity.
  - destruct Hstage
      as [(e & _ & Hrun) | [(_ & Hrun) | [(text & e & _ & _ & Hrun)
          | [(text & quiz_data & e & _ & _ & _ & Hrun)
            | (text & quiz_data & doc_content & Hanswer & Hjson & Hformat
               & Hrun)]]]];
      rewrite Hrun in Hbody;
      [discriminate Hbody | discriminate Hbody | | discriminate Hbody |].
    + injection Hbody as <- <-. right. right. split; [reflexivity|].
      right. now left.
    + unfold after in Hbody. cbn [snd] in Hbody.
      destruct (export_to_docs_cases w num_questions doc_content)
        as [(e & _ & E) | [(e & _ & _ & E) | [(e & _ & _ & _ & E)
            | [(document & e & _ & _ & _ & _ & E)
              | (document & _ & _ & Hcreate & Hupdate & E)]]]];
        rewrite E in Hbody; cbn [snd] in Hbody;
        try (destruct (Hfailed _ Hbody) as [-> Hmessage];
             right; right; split; [reflexivity|];
             right; right; exact Hmessage).
      injection Hbody as <- <-. left. split; [reflexivity|].
      now exists (document_id document).
Qed.

End Runs.


(** ** Failures of the model and of the export *)

Section Failures.

Variable py : Builtins.

Lemma export_error_outcome w num_questions doc_content e :
  export_error w (doc_title num_questions) doc_content = Some e ->
  snd (export_to_docs py w num_questions doc_content)
  = snd (@export_failed Empty_set e).
Proof.
  unfold export_error. intros H.
  destruct (export_to_docs_cases py w num_questions doc_content)
    as [(e' & E1 & E) | [(e' & E1 & E2 & E) | [(e' & E1 & E2 & E3 & E)
        | [(document & e' & E1 & E2 & E3 & E4 & E)
          | (document & E1 & E2 & E3 & E4 & E)]]]];
    rewrite E; rewrite E1 in H; try rewrite E2 in H; try rewrite E3 in H;
    try rewrite E4 in H; cbn [snd]; congruence.
Qed.

(** X5.  When the model returns a response without text ([response.text]
    is [None]), the search for the brace raises, the [except] clause slices
    [None] for its log line, and the [TypeError] of that slice leaves the
    view after the model call: no JSON error body is returned. *)
Theorem response_without_text_escapes
    w request client source_text num_questions prompt :
  gemini_client w = Some client ->
  read_input py request = Ok (source_text, num_questions) ->
  build_prompt py source_text num_questions = Ok prompt ->
  generate_content client gemini_model prompt = Ok None ->
  generate py w request
  = ([GenerateContent gemini_model prompt], Throw TypeError).
Proof.
  intros Hclient Hinput Hprompt Hanswer.
  rewrite (generate_valid py w request client source_text num_questions prompt)
    by assumption.
  rewrite (generate_quiz_no_text py client prompt) by assumption.
  reflexivity.
Qed.


(** X7.  How a failed export is reported, by the exception of its first
    call that raises: an [HttpError] with readable content gives 500 with
    the status code of the error in the message; an [HttpError] whose
    content is not valid UTF-8 makes [err.content.decode()] raise inside the
    [except] clause, and that exception leaves the view; any other exception
    gives 500 with the message of an unexpected error. *)
Theorem publish_failure_is_reported
    w request client source_text num_questions prompt text quiz_data
    doc_content e :
  gemini_client w = Some client ->
  read_input py request = Ok (source_text, num_questions) ->
  build_prompt py source_text num_questions = Ok prompt ->
  generate_content client gemini_model prompt = Ok (Some text) ->
  extract_json py text = Ok quiz_data ->
  format_doc py quiz_data = Ok doc_content ->
  export_error w (doc_title num_questions) doc_content = Some e ->
  (forall status content,
     e = HttpError status (Some content) ->
     snd (generate py w request)
     = Return 500
         (error_body
            ("Failed to create Google Doc. Check Cloud Run permissions. Error: "
               ++ str_of_int status))) /\
  (forall status,
     e = HttpError status None ->
     snd (generate py w request) = Throw UnicodeDecodeError) /\
  ((forall status content, e <> HttpError status content) ->
   snd (generate py w request)
   = Return 500 (error_body "An unexpected error occurred during Docs export.")).
Proof.
  intros Hclient Hinput Hprompt Hanswer Hjson Hformat Herror.
  rewrite (generate_parsed py w request client source_text num_questions prompt
             text quiz_data) by assumption.
  rewrite Hformat. unfold after. cbn [snd].
  rewrite (export_error_outcome w num_questions doc_content e Herror).
  repeat split.
  - intros status content ->. reflexivity.
  - intros status ->. reflexivity.
  - intros Hother.
    destruct e as [| | | | | | | |status content|]; try reflexivity.
    now destruct (Hother status content).
Qed.

(** X8.  When the document was created and the insertion raises, the
    handler has made all five calls, the insertion is the last of them
    (nothing removes the created document), and the response is not a
    success. *)
Theorem failed_insert_leaves_the_document
    w request client source_text num_questions prompt text quiz_data
    doc_content document e :
  gemini_client w = Some client ->
  read_input py request = Ok (source_text, num_questions) ->
  build_prompt py source_text num_questions = Ok prompt ->
  generate_content client gemini_model prompt = Ok (Some text) ->
  extract_json py text = Ok quiz_data ->
  format_doc py quiz_data = Ok doc_content ->
  auth_default w = Ok tt ->
  build_docs w = Ok tt ->
  documents_create w (doc_title num_questions) = Ok document ->
  documents_batchUpdate w (document_id document) doc_content = Raise e ->
  fst (generate py w request)
  = pipeline_calls prompt (doc_title num_questions) (document_id document)
      doc_content /\
  forall body, snd (generate py w request) <> Return 200 body.
Proof.
  intros Hclient Hinput Hprompt Hanswer Hjson Hformat Hauth Hbuild Hcreate
    Hupdate.
  rewrite (generate_parsed py w request client source_text num_questions prompt
             text quiz_data) by assumption.
  rewrite Hformat. unfold after. cbn [fst snd].
  destruct (export_to_docs_cases py w num_questions doc_content)
    as [(e' & E1 & E) | [(e' & E1 & E2 & E) | [(e' & E1 & E2 & E3 & E)
        | [(document' & e' & E1 & E2 & E3 & E4 & E)
          | (document' & E1 & E2 & E3 & E4 & E)]]]];
    try congruence.
  rewrite Hcreate in E3. injection E3 as <-.
  rewrite E. cbn [fst snd]. split; [reflexivity|].
  intros body. apply export_failed_not_success.
Qed.

(** X9.  When credential discovery raises, no request creates a document:
    the handler calls at most the model and the discovery, and never answers
    200. *)
Theorem no_credentials_no_document w request e :
  auth_default w = Raise e ->
  (exists prompt,
     is_prefix (fst (generate py w request))
       [GenerateContent gemini_model prompt; AuthDefault]) /\
  forall body, snd (generate py w request) <> Return 200 body.
Proof.
  intros Hauth. unfold is_prefix.
  destruct (generate_cases py w request)
    as [(_ & Hrun) | [(client & e' & _ & _ & Hrun)
        | (client & source_text & num_questions & prompt & Hclient & Hinput
           & Hprompt & Hstage)]].
  - rewrite Hrun. split; [exists ""; eexists; reflexivity | discriminate].
  - rewrite Hrun. split; [exists ""; eexists; reflexivity | discriminate].
  - destruct Hstage
      as [(e' & _ & Hrun) | [(_ & Hrun) | [(text & e' & _ & _ & Hrun)
          | [(text & quiz_data & e' & _ & _ & _ & Hrun)
            | (text & quiz_data & doc_content & _ & _ & _ & Hrun)]]]];
      rewrite Hrun;
      [split; [exists prompt; eexists; reflexivity | discriminate] ..|].
    unfold after. cbn [fst snd].
    destruct (export_to_docs_cases py w num_questions doc_content)
      as [(e' & E1 & E) | [(e' & E1 & _) | [(e' & E1 & _)
          | [(document' & e' & E1 & _) | (document' & E1 & _)]]]];
      try congruence.
    rewrite E. cbn [fst snd app]. split.
    + exists prompt. exists []. reflexivity.
    + intros body. apply export_failed_not_success.
Qed.

End Failures.


(** ** Searching a text put together from parts *)

Lemma length_append (a b : string) :
  String.length (a ++ b) = (String.length a + String.length b)%nat.
Proof. induction a as [|x a IH]; simpl; [reflexivity | now rewrite IH]. Qed.

Lemma find_from_append (c : ascii) (a b : string) :
  has_char c a = false ->
  forall i, find_from c (a ++ String c b) i = i + len a.
Proof.
  unfold len. induction a as [|x a IH]; intros H i.
  - simpl. rewrite Ascii.eqb_refl. lia.
  - simpl in H. apply orb_false_iff in H as [Hx Ha].
    simpl append. cbn [find_from]. rewrite Hx, (IH Ha).
    simpl String.length. lia.
Qed.

Lemma rfind_from_absent (c : ascii) (s : string) :
  has_char c s = false -> forall i last, rfind_from c s i last = last.
Proof.
  induction s as [|a s IH]; simpl; intros H i last.
  - reflexivity.
  - apply orb_false_iff in H as [Ha Hs].
    rewrite Ha. now apply IH.
Qed.

Lemma rfind_from_append (c : ascii) (a b : string) :
  has_char c b = false ->
  forall i last, rfind_from c (a ++ String c b) i last = i + len a.
Proof.
  unfold len. intros Hb. induction a as [|x a IH]; intros i last.
  - simpl. rewrite Ascii.eqb_refl, (rfind_from_absent c b Hb). lia.
  - simpl append. cbn [rfind_from]. rewrite IH. simpl String.length. lia.
Qed.

Lemma substring_prefix (a b : string) :
  substring 0 (String.length a) (a ++ b) = a.
Proof.
  induction a as [|x a IH]; simpl.
  - now destruct b.
  - now rewrite IH.
Qed.

Lemma substring_skip (a s : string) (n : nat) :
  substring (String.length a) n (a ++ s) = substring 0 n s.
Proof. induction a as [|x a IH]; simpl; [reflexivity | exact IH]. Qed.

(** [text[i:j]] for the bounds of a part in the middle. *)
Lemma slice_middle (a m b : string) :
  slice (a ++ m ++ b) (len a) (len a + len m) = m.
Proof.
  unfold slice, slice_bound, len.
  rewrite !length_append.
  replace (Z.of_nat (String.length a) <? 0) with false
    by (symmetry; apply Z.ltb_ge; lia).
  replace (Z.of_nat (String.length a) + Z.of_nat (String.length m) <? 0)
    with false
    by (symmetry; apply Z.ltb_ge; lia).
  replace (Z.to_nat
             (Z.min (Z.of_nat (String.length a))
                (Z.of_nat (String.length a
                           + (String.length m + String.length b)))))
    with (String.length a) by lia.
  replace (Z.to_nat
             (Z.min (Z.of_nat (String.length a) + Z.of_nat (String.length m))
                (Z.of_nat (String.length a
                           + (String.length m + String.length b)))
              - Z.min (Z.of_nat (String.length a))
                  (Z.of_nat (String.length a
                             + (String.length m + String.length b)))))
    with (String.length m) by lia.
  rewrite substring_skip. apply substring_prefix.
Qed.

Lemma find_from_spec (c : ascii) (s : string) :
  forall i,
    find_from c s i = -1 \/
    exists k, (k < String.length s)%nat /\
              find_from c s i = i + Z.of_nat k /\
              String.get k s = Some c.
Proof.
  induction s as [|a s IH]; intros i; simpl.
  - now left.
  - destruct (Ascii.eqb a c) eqn:Hac.
    + right. exists 0%nat. apply Ascii.eqb_eq in Hac. subst a.
      repeat split; [lia | lia].
    + destruct (IH (i + 1)) as [E | (k & Hk & E & G)].
      * now left.
      * right. exists (S k). repeat split; [lia | lia | exact G].
Qed.

Lemma find_from_present (c : ascii) (s : string) :
  has_char c s = true -> forall i, 0 <= i -> find_from c s i <> -1.
Proof.
  induction s as [|a s IH]; simpl; intros H i Hi.
  - discriminate.
  - destruct (Ascii.eqb a c); [lia|].
    apply IH; [exact H | lia].
Qed.

Lemma substring_head (k n : nat) (s : string) (c : ascii) :
  String.get k s = Some c ->
  substring k (S n) s = String c (substring (S k) n s).
Proof.
  revert s. induction k as [|k IH]; intros [|a s] H; simpl in *;
    try discriminate.
  - now injection H as ->.
  - now apply IH.
Qed.

Section Extractor.

Variable py : Builtins.

Lemma parse_object_dict (fuel : nat) :
  forall s acc v r,
    parse_object py fuel s acc = Parsed v r -> exists d, v = PyDict d.
Proof.
  induction fuel as [|fuel IH]; intros s acc v r H.
  - discriminate.
  - simpl in H.
    destruct s as [|q s1]; [discriminate|].
    destruct (ord q =? 34); [|discriminate].
    destruct (scanstring s1) as [[key r1]|]; [|discriminate].
    destruct (skip_ws r1) as [|colon r2]; [discriminate|].
    destruct (ord colon =? 58); [|discriminate].
    destruct (scan_once py fuel (skip_ws r2)) as [x r3| |]; try discriminate.
    destruct (skip_ws r3) as [|d r4]; [discriminate|].
    destruct (ord d =? 125).
    { injection H as <- _. eauto. }
    destruct (ord d =? 44); [|discriminate].
    now apply IH in H.
Qed.

(** Text that starts with an opening brace decodes to a [dict], if at all. *)
Lemma json_loads_object (s : string) v :
  json_loads py (String "{" s) = Ok v -> exists d, v = PyDict d.
Proof.
  unfold json_loads, enough_fuel.
  change (skip_ws (String "{" s)) with (String "{"%char s).
  replace (2 * String.length (String "{" s) + 2)%nat
    with (S (2 * String.length s + 3)) by (simpl; lia).
  cbn [scan_once].
  change (ord "{" =? 34) with false. change (ord "{" =? 123) with true.
  cbv iota.
  destruct (skip_ws s) as [|d r]; [discriminate|].
  destruct (ord d =? 125).
  - destruct (skip_ws r); [|discriminate]. intros H. injection H as <-. eauto.
  - destruct (parse_object py _ _ _) as [x rest| |] eqn:E; try discriminate.
    apply parse_object_dict in E as [dict ->].
    destruct (skip_ws rest); [|discriminate]. intros H. injection H as <-.
    eauto.
Qed.

(** X10.  Text before the object that holds no opening brace and text
    behind it that holds no closing brace are dropped: the extractor decodes
    the span from the opening brace to the closing brace and nothing else. *)
Theorem prose_around_the_object_is_dropped (before body behind : string) :
  has_char "{" before = false ->
  has_char "}" behind = false ->
  extract_json py (before ++ "{" ++ body ++ "}" ++ behind)
  = json_loads py ("{" ++ body ++ "}").
Proof.
  intros Hbefore Hbehind. unfold extract_json. f_equal.
  assert (Hfind : find "{" (before ++ "{" ++ body ++ "}" ++ behind)
                  = len before).
  { unfold find. change ("{" ++ body ++ "}" ++ behind)
      with (String "{" (body ++ "}" ++ behind)).
    rewrite find_from_append by assumption. lia. }
  assert (Hrfind : rfind "}" (before ++ "{" ++ body ++ "}" ++ behind)
                   = len before + len ("{" ++ body)).
  { unfold rfind.
    replace (before ++ "{" ++ body ++ "}" ++ behind)
      with ((before ++ "{" ++ body) ++ String "}" behind)
      by (now rewrite !append_assoc).
    rewrite rfind_from_append by assumption.
    unfold len. rewrite length_append. lia. }
  rewrite Hfind, Hrfind.
  replace (before ++ "{" ++ body ++ "}" ++ behind)
    with (before ++ ("{" ++ body ++ "}") ++ behind)
    by (now rewrite !append_assoc).
  replace (len before + len ("{" ++ body) + 1)
    with (len before + len ("{" ++ body ++ "}")).
  - apply slice_middle.
  - unfold len. simpl String.length. rewrite !length_append.
    simpl String.length. lia.
Qed.

(** X11.  When the last closing brace of the answer comes before its first
    opening brace, or the answer has an opening brace and no closing brace,
    the span is empty: decoding fails and the handler answers 500 with the
    message of a failed generation, after the model call alone. *)
Theorem closing_brace_before_opening_is_malformed
    w request client source_text num_questions prompt text :
  gemini_client w = Some client ->
  read_input py request = Ok (source_text, num_questions) ->
  build_prompt py source_text num_questions = Ok prompt ->
  generate_content client gemini_model prompt = Ok (Some text) ->
  rfind "}" text < find "{" text ->
  extract_json py text = Raise JSONDecodeError /\
  generate py w request
  = ([GenerateContent gemini_model prompt],
     Return 500 (error_body generation_error)).
Proof.
  intros Hclient Hinput Hprompt Hanswer Horder.
  assert (Hjson : extract_json py text = Raise JSONDecodeError).
  { unfold extract_json.
    replace (slice text (find "{" text) (rfind "}" text + 1))
      with EmptyString; [reflexivity|].
    unfold slice, slice_bound, len. unfold find, rfind in *.
    destruct (rfind_from_spec "}" text 0 (-1)) as [E | (k & Hk & E & _)];
      rewrite E in *;
      (destruct (find_from_spec "{" text 0) as [F | (j & Hj & F & _)];
       rewrite F in *; [lia|]).
    - replace (0 + Z.of_nat j <? 0) with false
    by (symmetry; apply Z.ltb_ge; lia).
      change (-1 + 1 <? 0) with false. cbv iota.
      replace (Z.to_nat (Z.min (-1 + 1) (Z.of_nat (String.length text))
                         - Z.min (0 + Z.of_nat j)
                             (Z.of_nat (String.length text))))
        with 0%nat by lia.
      now rewrite substring_none.
    - replace (0 + Z.of_nat j <? 0) with false
    by (symmetry; apply Z.ltb_ge; lia).
      replace (0 + Z.of_nat k + 1 <? 0) with false
    by (symmetry; apply Z.ltb_ge; lia).
      replace (Z.to_nat (Z.min (0 + Z.of_nat k + 1)
                           (Z.of_nat (String.length text))
                         - Z.min (0 + Z.of_nat j)
                             (Z.of_nat (String.length text))))
        with 0%nat by lia.
      now rewrite substring_none. }
  split; [exact Hjson|].
  rewrite (generate_valid py w request client source_text num_questions prompt)
    by assumption.
  rewrite (generate_quiz_malformed py client prompt text JSONDecodeError)
    by assumption.
  reflexivity.
Qed.

(** X12.  What the extractor returns is always a JSON object: the span
    starts at an opening brace, so the formatter calls [.get] on a
    [dict]. *)
Theorem decoded_answer_is_an_object (text : string) (quiz_data : pyval) :
  extract_json py text = Ok quiz_data ->
  exists d, quiz_data = PyDict d.
Proof.
  intros Hjson.
  destruct (has_char "{" text) eqn:Hbrace.
  2:{ rewrite (extract_without_open_brace py text Hbrace) in Hjson.
      discriminate Hjson. }
  unfold extract_json in Hjson.
  destruct (find_from_spec "{" text 0) as [F | (j & Hj & F & G)].
  - exfalso. revert F. now apply find_from_present.
  - unfold slice in Hjson. fold (find "{" text) in F. rewrite F in Hjson.
    remember (Z.to_nat
                (slice_bound (rfind "}" text + 1) (len text)
                 - slice_bound (0 + Z.of_nat j) (len text))) as n eqn:Hn.
    assert (Hstart : Z.to_nat (slice_bound (0 + Z.of_nat j) (len text)) = j).
    { unfold slice_bound, len.
      replace (0 + Z.of_nat j <? 0) with false
    by (symmetry; apply Z.ltb_ge; lia). lia. }
    rewrite Hstart in Hjson.
    destruct n as [|n].
    + rewrite substring_none in Hjson. discriminate Hjson.
    + rewrite (substring_head j n text "{" G) in Hjson.
      now apply json_loads_object in Hjson.
Qed.

End Extractor.


(** ** The formatter and the prompt on any value *)

Section Layout.

Variable py : Builtins.

Lemma add_questions_each (items : list pyval) :
  forall doc_content,
    add_questions py items doc_content
    = (questions <- each (question_text py) items ;;
       Ok (doc_content
             ++ String.concat EmptyString
                  (map (fun q => q ++ LF ++ LF) questions)))%res.
Proof.
  induction items as [|item items IH]; intros doc_content.
  - simpl. now rewrite append_empty_r.
  - cbn [add_questions each].
    destruct (question_text py item) as [q|e]; cbn [res_bind]; [|reflexivity].
    rewrite IH.
    destruct (each (question_text py) items) as [questions|e];
      cbn [res_bind]; [|reflexivity].
    rewrite map_cons, concat_cons. now rewrite !append_assoc.
Qed.

Lemma add_answers_each (items : list pyval) :
  forall doc_content,
    add_answers py items doc_content
    = (lines <- each (answer_line py) items ;;
       Ok (doc_content ++ String.concat EmptyString lines))%res.
Proof.
  induction items as [|item items IH]; intros doc_content.
  - simpl. now rewrite append_empty_r.
  - cbn [add_answers each].
    destruct (answer_line py item) as [line|e]; cbn [res_bind]; [|reflexivity].
    rewrite IH.
    destruct (each (answer_line py) items) as [lines|e];
      cbn [res_bind]; [|reflexivity].
    rewrite concat_cons. now rewrite !append_assoc.
Qed.

(** X13.  The two loops of the formatter, on any decoded value: the
    document is the header, the text of each question in input order with a
    blank line behind it, the heading of the answer key and the line of each
    answer in input order; it raises what the first unreadable section or
    item raises, the questions being read before the answers. *)
Theorem format_doc_is_a_layout (quiz_data : pyval) :
  format_doc py quiz_data
  = (quiz <- py_get quiz_data "quiz" (PyList []) ;;
     items <- py_iter quiz ;;
     questions <- each (question_text py) items ;;
     answers <- py_get quiz_data "answers" (PyList []) ;;
     items <- py_iter answers ;;
     lines <- each (answer_line py) items ;;
     Ok (layout questions lines))%res.
Proof.
  unfold format_doc.
  destruct (py_get quiz_data "quiz" (PyList [])) as [quiz|e];
    cbn [res_bind]; [|reflexivity].
  destruct (py_iter quiz) as [items|e]; cbn [res_bind]; [|reflexivity].
  rewrite add_questions_each.
  destruct (each (question_text py) items) as [questions|e];
    cbn [res_bind]; [|reflexivity].
  destruct (py_get quiz_data "answers" (PyList [])) as [answers|e];
    cbn [res_bind]; [|reflexivity].
  destruct (py_iter answers) as [items'|e]; cbn [res_bind]; [|reflexivity].
  rewrite add_answers_each.
  destruct (each (answer_line py) items') as [lines|e];
    cbn [res_bind]; [|reflexivity].
  unfold layout. now rewrite !append_assoc.
Qed.

Lemma characters_nonempty (c : ascii) (s : string) :
  exists g gs, characters (String c s) = g :: gs.
Proof.
  revert c. induction s as [|d s IH]; intros c.
  - simpl. eauto.
  - change (characters (String c (String d s)))
      with (if is_continuation d
            then match characters (String d s) with
                 | g :: gs => String c g :: gs
                 | [] => [String c EmptyString]
                 end
            else String c EmptyString :: characters (String d s)).
    destruct (is_continuation d).
    + destruct (IH d) as (g & gs & ->). eauto.
    + eauto.
Qed.

(** What iteration yields first from a value that is not a list. *)
Lemma py_iter_not_a_list (v : pyval) :
  (forall items, v <> PyList items) ->
  v <> PyStr "" ->
  v <> PyDict [] ->
  py_iter v = Raise TypeError \/
  exists s rest, py_iter v = Ok (PyStr s :: rest).
Proof.
  intros Hlist Hstr Hdict.
  destruct v as [| | | |s|items|d]; try (now left).
  - right. destruct s as [|c s]; [congruence|].
    destruct (characters_nonempty c s) as (g & gs & E).
    cbn [py_iter]. rewrite E. simpl. eauto.
  - now destruct (Hlist items).
  - right. destruct d as [|[k x] d]; [congruence|]. simpl. eauto.
Qed.

Lemma question_text_of_str (s : string) :
  question_text py (PyStr s) = Raise TypeError.
Proof. reflexivity. Qed.

Lemma answer_line_of_str (s : string) :
  answer_line py (PyStr s) = Raise TypeError.
Proof. reflexivity. Qed.

Lemma format_doc_quiz_not_a_list d v :
  dict_lookup "quiz" d = Some v ->
  (forall items, v <> PyList items) ->
  v <> PyStr "" ->
  v <> PyDict [] ->
  format_doc py (PyDict d) = Raise TypeError.
Proof.
  intros Hquiz Hlist Hstr Hdict.
  unfold format_doc. cbn [py_get]. rewrite Hquiz. cbn [res_bind].
  destruct (py_iter_not_a_list v Hlist Hstr Hdict) as [-> | (s & rest & ->)];
    [reflexivity|].
  cbn [res_bind add_questions]. rewrite question_text_of_str. reflexivity.
Qed.

Lemma format_doc_answers_not_a_list d v :
  dict_lookup "answers" d = Some v ->
  (forall items, v <> PyList items) ->
  v <> PyStr "" ->
  v <> PyDict [] ->
  exists e, format_doc py (PyDict d) = Raise e.
Proof.
  intros Hanswers Hlist Hstr Hdict.
  assert (Hloop : forall doc_content,
             exists e,
               (items <- py_iter v ;; add_answers py items doc_content)%res
               = Raise e).
  { intros doc_content.
    destruct (py_iter_not_a_list v Hlist Hstr Hdict) as [-> | (s & rest & ->)];
      cbn [res_bind add_answers]; [eauto|].
    rewrite answer_line_of_str. cbn [res_bind]. eauto. }
  unfold format_doc. cbn [py_get]. rewrite Hanswers.
  destruct (dict_lookup "quiz" d) as [quiz|]; cbn [res_bind].
  - destruct (py_iter quiz) as [items|e]; cbn [res_bind]; [|eauto].
    destruct (add_questions py items _) as [doc_content|e];
      cbn [res_bind]; [|eauto].
    apply Hloop.
  - cbn [py_iter res_bind add_questions]. apply Hloop.
Qed.

(** X14.  A ["quiz"] or ["answers"] value that is not a list, the empty
    string and the empty object apart: [null], a boolean or a number cannot
    be iterated, a string yields its characters and an object its keys,
    which have no fields.  The formatter raises outside every [try], with a
    [TypeError] when the value is that of ["quiz"], and the exception leaves
    the view after the model call. *)
Theorem section_that_is_not_a_list_escapes
    w request client source_text num_questions prompt text d v :
  gemini_client w = Some client ->
  read_input py request = Ok (source_text, num_questions) ->
  build_prompt py source_text num_questions = Ok prompt ->
  generate_content client gemini_model prompt = Ok (Some text) ->
  extract_json py text = Ok (PyDict d) ->
  dict_lookup "quiz" d = Some v \/ dict_lookup "answers" d = Some v ->
  (forall items, v <> PyList items) ->
  v <> PyStr "" ->
  v <> PyDict [] ->
  exists e,
    format_doc py (PyDict d) = Raise e /\
    generate py w request = ([GenerateContent gemini_model prompt], Throw e) /\
    (dict_lookup "quiz" d = Some v -> e = TypeError).
Proof.
  intros Hclient Hinput Hprompt Hanswer Hjson Hsection Hlist Hstr Hdict.
  assert (Hraise : exists e, format_doc py (PyDict d) = Raise e /\
                             (dict_lookup "quiz" d = Some v -> e = TypeError)).
  { destruct Hsection as [Hquiz | Hanswers].
    - exists TypeError. split; [|reflexivity].
      now apply (format_doc_quiz_not_a_list d v).
    - destruct (format_doc_answers_not_a_list d v Hanswers Hlist Hstr Hdict)
        as [e He].
      exists e. split; [exact He|]. intros Hquiz.
      rewrite (format_doc_quiz_not_a_list d v Hquiz Hlist Hstr Hdict) in He.
      now injection He. }
  destruct Hraise as (e & He & Htype). exists e.
  split; [exact He|]. split; [|exact Htype].
  rewrite (generate_parsed py w request client source_text num_questions prompt
             text (PyDict d)) by assumption.
  now rewrite He.
Qed.

Lemma ord_differs (c x : ascii) :
  Ascii.eqb c x = false -> (ord c =? ord x) = false.
Proof.
  intros H. apply Z.eqb_neq. intros E. unfold ord in E.
  apply Ascii.eqb_neq in H. apply H.
  rewrite <- (ascii_nat_embedding c), <- (ascii_nat_embedding x).
  f_equal. lia.
Qed.

(** Inside a replacement field, up to its closing brace. *)
Lemma format_from_name (name rest : string) kwargs :
  no_brace name = true ->
  forall read,
    format_from py (name ++ String "}" rest) (Some read) kwargs
    = match dict_lookup (read ++ name) kwargs with
      | None => Raise (KeyError (read ++ name))
      | Some v => map_res (append (py_str py v)) (format_from py rest None kwargs)
      end.
Proof.
  unfold no_brace.
  induction name as [|c name IH]; intros H read.
  - rewrite append_empty_r. simpl.
    destruct (dict_lookup read kwargs) as [v|]; [|reflexivity].
    now destruct (format_from py rest None kwargs).
  - simpl in H. apply andb_true_iff in H as [H1 H2].
    apply negb_true_iff, orb_false_iff in H1 as [H1 H1'].
    apply negb_true_iff, orb_false_iff in H2 as [H2 H2'].
    simpl append. cbn [format_from].
    change 125 with (ord "}"). rewrite (ord_differs c "}" H2).
    rewrite IH by (now rewrite H1', H2').
    now rewrite append_assoc.
Qed.

(** A replacement field is filled with [str] of its argument. *)
Lemma format_from_field (c : ascii) (name rest : string) kwargs v :
  no_brace (String c name) = true ->
  dict_lookup (String c name) kwargs = Some v ->
  format_from py (String "{" (String c name ++ String "}" rest)) None kwargs
  = map_res (append (py_str py v)) (format_from py rest None kwargs).
Proof.
  intros Hname Hv.
  unfold no_brace in Hname. simpl in Hname.
  apply andb_true_iff in Hname as [H1 H2].
  apply negb_true_iff, orb_false_iff in H1 as [H1 H1'].
  apply negb_true_iff, orb_false_iff in H2 as [H2 H2'].
  simpl append. cbn [format_from].
  change (ord "{" =? 123) with true. cbv iota.
  change 123 with (ord "{"). rewrite (ord_differs c "{" H1).
  change 125 with (ord "}"). rewrite (ord_differs c "}" H2).
  rewrite format_from_name by (unfold no_brace; now rewrite H1', H2').
  change ((EmptyString ++ String c EmptyString) ++ name) with (String c name).
  now rewrite Hv.
Qed.

Lemma prompt_tail_copied kwargs :
  format_from py prompt_tail None kwargs = Ok (halve_braces prompt_tail).
Proof. vm_compute. reflexivity. Qed.

(** X15.  The prompt for any source value and any count: formatting never
    raises, the text of the source is put in as it is, braces included, the
    count is capped at 20, and the rest is the template with each doubled
    brace once. *)
Theorem prompt_is_the_filled_template (source_text : pyval) (num_questions : Z) :
  build_prompt py source_text num_questions
  = Ok (prompt_head ++ py_str py source_text ++ prompt_middle
          ++ str_of_int (Z.min num_questions 20) ++ halve_braces prompt_tail).
Proof.
  unfold build_prompt, prompt_with, py_format, GEMINI_QUIZ_PROMPT.
  rewrite format_from_literal by reflexivity.
  change ("{source_text}" ++ prompt_middle ++ "{num_questions}" ++ prompt_tail)
    with (String "{" ("source_text" ++ String "}"
                        (prompt_middle ++ "{num_questions}" ++ prompt_tail))).
  rewrite (format_from_field "s" "ource_text"
             (prompt_middle ++ "{num_questions}" ++ prompt_tail)
             [("source_text", source_text);
              ("num_questions", PyInt (Z.min num_questions 20))]
             source_text eq_refl eq_refl).
  rewrite format_from_literal by reflexivity.
  change ("{num_questions}" ++ prompt_tail)
    with (String "{" ("num_questions" ++ String "}" prompt_tail)).
  rewrite (format_from_field "n" "um_questions" prompt_tail
             [("source_text", source_text);
              ("num_questions", PyInt (Z.min num_questions 20))]
             (PyInt (Z.min num_questions 20)) eq_refl eq_refl).
  rewrite prompt_tail_copied. reflexivity.
Qed.

End Layout.


(** ** Closed instances of the runs *)

(** X1, instance: a fenced answer with one question is published. *)
Lemma published_quiz_instance :
  generate example_builtins
    (example_world (Some (example_client (Ok (Some fenced_answer)))))
    (example_request example_fields)
  = (pipeline_calls (example_prompt example_source 5) "AI Quiz - 5 Questions"
       (PyStr "doc-1") (spec_document example_quiz),
     Return 200 (success_body example_url)).
Proof.
  exact (published_quiz_is_linked example_builtins
           (example_world (Some (example_client (Ok (Some fenced_answer)))))
           (example_request example_fields)
           (example_client (Ok (Some fenced_answer)))
           example_source 5 (example_prompt example_source 5) fenced_answer
           (document_to_py example_quiz) (spec_document example_quiz)
           [("documentId", PyStr "doc-1"); ("title", PyStr (doc_title 5))]
           eq_refl eq_refl eq_refl eq_refl eq_refl eq_refl eq_refl eq_refl
           eq_refl eq_refl).
Defined.

(** X2, instance: the run of the fenced answer, read back from its 200. *)
Lemma published_run_instance :
  exists client source_text num_questions prompt text quiz_data doc_content
         document,
    gemini_client
      (example_world (Some (example_client (Ok (Some fenced_answer)))))
    = Some client /\
    read_input example_builtins (example_request example_fields)
    = Ok (source_text, num_questions) /\
    build_prompt example_builtins source_text num_questions = Ok prompt /\
    generate_content client gemini_model prompt = Ok (Some text) /\
    extract_json example_builtins text = Ok quiz_data /\
    format_doc example_builtins quiz_data = Ok doc_content /\
    documents_create
      (example_world (Some (example_client (Ok (Some fenced_answer)))))
      (doc_title num_questions)
    = Ok document /\
    documents_batchUpdate
      (example_world (Some (example_client (Ok (Some fenced_answer)))))
      (document_id document) doc_content
    = Ok tt /\
    fst (generate example_builtins
           (example_world (Some (example_client (Ok (Some fenced_answer)))))
           (example_request example_fields))
    = pipeline_calls prompt (doc_title num_questions) (document_id document)
        doc_content /\
    success_body example_url
    = success_body (doc_link example_builtins (document_id document)).
Proof.
  apply (success_means_published example_builtins
           (example_world (Some (example_client (Ok (Some fenced_answer)))))
           (example_request example_fields) (success_body example_url)).
  vm_compute. reflexivity.
Defined.

(** X4, instance: the response to a count that is not a number. *)
Lemma rejected_response_instance :
  (400 = 200 /\
   exists doc_id,
     error_body "Invalid input data."
     = success_body (doc_link example_builtins doc_id)) \/
  (400 = 400 /\ error_body "Invalid input data." = error_body "Invalid input data.") \/
  (400 = 500 /\
   (error_body "Invalid input data."
    = error_body "Gemini Client not initialized. Check API Key configuration." \/
    error_body "Invalid input data." = error_body generation_error \/
    error_body "Invalid input data."
    = error_body "An unexpected error occurred during Docs export." \/
    exists code,
      error_body "Invalid input data."
      = error_body
          ("Failed to create Google Doc. Check Cloud Run permissions. Error: "
             ++ str_of_int code))).
Proof.
  apply (responses_are_enumerated example_builtins
           (example_world (Some (example_client (Ok (Some fenced_answer)))))
           (example_request
              [("source_text", example_source); ("num_questions", PyStr "five")])
           400 (error_body "Invalid input data.")).
  reflexivity.
Defined.

(** X5, instance: a response without text. *)
Lemma blocked_answer_instance :
  generate example_builtins
    (example_world (Some (example_client (Ok None))))
    (example_request example_fields)
  = ([GenerateContent gemini_model (example_prompt example_source 5)],
     Throw TypeError).
Proof.
  exact (response_without_text_escapes example_builtins
           (example_world (Some (example_client (Ok None))))
           (example_request example_fields) (example_client (Ok None))
           example_source 5 (example_prompt example_source 5)
           eq_refl eq_refl eq_refl eq_refl).
Defined.


(** X7, instance: the creation is refused with status 403. *)
Lemma forbidden_create_instance :
  (forall status content,
     HttpError 403 (Some "The caller does not have permission")
     = HttpError status (Some content) ->
     snd (generate example_builtins
            (docs_world (Some (example_client (Ok (Some fenced_answer))))
               (Raise (HttpError 403 (Some "The caller does not have permission")))
               (Ok tt))
            (example_request example_fields))
     = Return 500
         (error_body
            ("Failed to create Google Doc. Check Cloud Run permissions. Error: "
               ++ str_of_int status))) /\
  (forall status,
     HttpError 403 (Some "The caller does not have permission")
     = HttpError status None ->
     snd (generate example_builtins
            (docs_world (Some (example_client (Ok (Some fenced_answer))))
               (Raise (HttpError 403 (Some "The caller does not have permission")))
               (Ok tt))
            (example_request example_fields))
     = Throw UnicodeDecodeError) /\
  ((forall status content,
      HttpError 403 (Some "The caller does not have permission")
      <> HttpError status content) ->
   snd (generate example_builtins
          (docs_world (Some (example_client (Ok (Some fenced_answer))))
             (Raise (HttpError 403 (Some "The caller does not have permission")))
             (Ok tt))
          (example_request example_fields))
   = Return 500 (error_body "An unexpected error occurred during Docs export.")).
Proof.
  exact (publish_failure_is_reported example_builtins
           (docs_world (Some (example_client (Ok (Some fenced_answer))))
              (Raise (HttpError 403 (Some "The caller does not have permission")))
              (Ok tt))
           (example_request example_fields)
           (example_client (Ok (Some fenced_answer)))
           example_source 5 (example_prompt example_source 5) fenced_answer
           (document_to_py example_quiz) (spec_document example_quiz)
           (HttpError 403 (Some "The caller does not have permission"))
           eq_refl eq_refl eq_refl eq_refl eq_refl eq_refl eq_refl).
Defined.

(** X8, instance: the insertion fails with status 500. *)
Lemma failed_insert_instance :
  fst (generate example_builtins
         (docs_world (Some (example_client (Ok (Some fenced_answer))))
            (Ok [("documentId", PyStr "doc-1")])
            (Raise (HttpError 500 (Some "Internal error"))))
         (example_request example_fields))
  = pipeline_calls (example_prompt example_source 5) "AI Quiz - 5 Questions"
      (PyStr "doc-1") (spec_document example_quiz) /\
  forall body,
    snd (generate example_builtins
           (docs_world (Some (example_client (Ok (Some fenced_answer))))
              (Ok [("documentId", PyStr "doc-1")])
              (Raise (HttpError 500 (Some "Internal error"))))
           (example_request example_fields))
    <> Return 200 body.
Proof.
  exact (failed_insert_leaves_the_document example_builtins
           (docs_world (Some (example_client (Ok (Some fenced_answer))))
              (Ok [("documentId", PyStr "doc-1")])
              (Raise (HttpError 500 (Some "Internal error"))))
           (example_request example_fields)
           (example_client (Ok (Some fenced_answer)))
           example_source 5 (example_prompt example_source 5) fenced_answer
           (document_to_py example_quiz) (spec_document example_quiz)
           [("documentId", PyStr "doc-1")]
           (HttpError 500 (Some "Internal error"))
           eq_refl eq_refl eq_refl eq_refl eq_refl eq_refl eq_refl eq_refl
           eq_refl eq_refl).
Defined.

(** X9, instance: a world in which credential discovery raises. *)
Lemma without_credentials_instance :
  (exists prompt,
     is_prefix
       (fst (generate example_builtins
               (world_without_credentials
                  (Some (example_client (Ok (Some fenced_answer)))))
               (example_request example_fields)))
       [GenerateContent gemini_model prompt; AuthDefault]) /\
  forall body,
    snd (generate example_builtins
           (world_without_credentials
              (Some (example_client (Ok (Some fenced_answer)))))
           (example_request example_fields))
    <> Return 200 body.
Proof.
  exact (no_credentials_no_document example_builtins
           (world_without_credentials
              (Some (example_client (Ok (Some fenced_answer)))))
           (example_request example_fields) AttributeError eq_refl).
Defined.

(** X10, instance: the answer of the specification's example, in its three
    parts. *)
Lemma wrapped_object_instance :
  extract_json example_builtins
    ("Here is the quiz: " ++ "{"
       ++ (DQ ++ "quiz" ++ DQ ++ ":[]," ++ DQ ++ "answers" ++ DQ ++ ":[]")
       ++ "}" ++ " thanks")
  = json_loads example_builtins
      ("{" ++ (DQ ++ "quiz" ++ DQ ++ ":[]," ++ DQ ++ "answers" ++ DQ ++ ":[]")
         ++ "}").
Proof.
  exact (prose_around_the_object_is_dropped example_builtins
           "Here is the quiz: "
           (DQ ++ "quiz" ++ DQ ++ ":[]," ++ DQ ++ "answers" ++ DQ ++ ":[]")
           " thanks" eq_refl eq_refl).
Defined.

(** X11, instance: a closing brace, then an opening brace. *)
Lemma braces_in_wrong_order_instance :
  extract_json example_builtins "} no quiz {" = Raise JSONDecodeError /\
  generate example_builtins
    (example_world (Some (example_client (Ok (Some "} no quiz {")))))
    (example_request example_fields)
  = ([GenerateContent gemini_model (example_prompt example_source 5)],
     Return 500 (error_body generation_error)).
Proof.
  exact (closing_brace_before_opening_is_malformed example_builtins
           (example_world (Some (example_client (Ok (Some "} no quiz {")))))
           (example_request example_fields)
           (example_client (Ok (Some "} no quiz {")))
           example_source 5 (example_prompt example_source 5) "} no quiz {"
           eq_refl eq_refl eq_refl eq_refl eq_refl).
Defined.

(** X12, instance: the fenced answer. *)
Lemma decoded_answer_instance :
  exists d, document_to_py example_quiz = PyDict d.
Proof.
  exact (decoded_answer_is_an_object example_builtins fenced_answer
           (document_to_py example_quiz) eq_refl).
Defined.

(** X14, instance: an answer whose ["quiz"] is [null]. *)
Lemma null_quiz_instance :
  exists e,
    format_doc example_builtins (PyDict [("quiz", PyNone)]) = Raise e /\
    generate example_builtins
      (example_world (Some (example_client (Ok (Some null_quiz_answer)))))
      (example_request example_fields)
    = ([GenerateContent gemini_model (example_prompt example_source 5)],
       Throw e) /\
    (dict_lookup "quiz" [("quiz", PyNone)] = Some PyNone -> e = TypeError).
Proof.
  apply (section_that_is_not_a_list_escapes example_builtins
           (example_world (Some (example_client (Ok (Some null_quiz_answer)))))
           (example_request example_fields)
           (example_client (Ok (Some null_quiz_answer)))
           example_source 5 (example_prompt example_source 5) null_quiz_answer
           [("quiz", PyNone)] PyNone
           eq_refl eq_refl eq_refl eq_refl eq_refl (or_introl eq_refl));
    discriminate.
Defined.
